(** * HTML-to-SCORM packager: a shallow embedding of [streamlit_app.py]

    The script stages an uploaded HTML file (or the content of an uploaded
    ZIP) in a scratch directory, picks a launch file, lists the staged files,
    builds [imsmanifest.xml] with [xml.etree.ElementTree] and zips everything.

    Conventions of the embedding.
    - A Python [str] is a [string]; every character stands for the code point
      with the same number (0..255).  [bytes] are [list byte].
    - The scratch directory is POSIX: the separator is [/], names are
      compared case-sensitively, and a name may contain a backslash.
    - The content of [course_root] is the list of its entries, directories
      included, in the order in which [Path.rglob] walks them; the [rglob]
      calls of the script walk the same unchanged directory and therefore
      agree on that order.
    - What [zipfile.ZipFile(...).extractall] does with the uploaded bytes is
      a parameter of the script: it leaves a tree behind or raises.
    - [zf.write(p, arcname)] stores a regular file under the name
      [ZipInfo.from_file] makes of [arcname]: the path normalised by
      [os.path.normpath], without leading slashes, cut at a null character;
      it raises [IndexError] when nothing is left of the name.
    - [xml.etree.ElementTree] is modelled as CPython 3.10 and later have it:
      attributes are written in insertion order, only the namespaces in use
      are declared, and [tostring] with [encoding='utf-8'] writes no
      declaration of its own.
    - A run of the script ends with the widget it shows last: the upload
      hint, an error followed by [st.stop()], the download button, or an
      exception nobody catches. *)

From Stdlib Require Import Strings.String Strings.Ascii Strings.Byte.
From Stdlib Require Import Lists.List Bool.Bool Arith.Arith NArith.NArith Lia.
From Stdlib Require Import Sorting.Mergesort Sorting.Sorted Sorting.Permutation.
From Stdlib Require Import Numbers.DecimalString.
Import ListNotations.

Local Open Scope list_scope.
Local Open Scope string_scope.

(* ===================================================================== *)
(** ** Python strings *)
(* ===================================================================== *)

Module PyStr.

(** Characters that cannot be written inside a literal. *)
Definition dquote : ascii := "034"%char.
Definition tab : ascii := "009"%char.
Definition newline : ascii := "010"%char.
Definition cr : ascii := "013"%char.
Definition backslash : ascii := "\"%char.

Definition chr (c : ascii) : string := String c EmptyString.

Definition ord (c : ascii) : N := N_of_ascii c.

(** [str.isspace] on one character: the code points below 256 that Unicode
    classes as white space. *)
Definition isspace (c : ascii) : bool :=
  let n := ord c in
  ((9 <=? n) && (n <=? 13) || (28 <=? n) && (n <=? 32)
   || (n =? 133) || (n =? 160))%N.

(** [str.lower] on one character: A-Z and the upper-case Latin-1 letters
    (all of 0xC0..0xDE but the multiplication sign 0xD7) move up by 32. *)
Definition lower_char (c : ascii) : ascii :=
  let n := ord c in
  if ((65 <=? n) && (n <=? 90)
      || (192 <=? n) && (n <=? 222) && negb (n =? 215))%N
  then ascii_of_N (n + 32) else c.

Fixpoint lower (s : string) : string :=
  match s with
  | EmptyString => EmptyString
  | String c s' => String (lower_char c) (lower s')
  end.

(** [s.startswith(p)] and [s.endswith(p)]. *)
Definition startswith (s p : string) : bool := String.prefix p s.

Definition endswith (s p : string) : bool :=
  (String.length p <=? String.length s)%nat
  && String.eqb (String.substring (String.length s - String.length p)
                                  (String.length p) s) p.

(** [s.endswith((p1, p2, ...))]. *)
Definition endswith_any (s : string) (ps : list string) : bool :=
  existsb (endswith s) ps.

(** [s.replace(old, new)]: occurrences of [old] are replaced from left to
    right without overlap.  [skip] counts the characters of an occurrence
    that are still to be passed over.  For an empty [old] Python puts [new]
    in front of every character and at the end. *)
Fixpoint replace_from (old new : string) (skip : nat) (s : string) : string :=
  match s with
  | EmptyString => EmptyString
  | String c s' =>
      match skip with
      | S k => replace_from old new k s'
      | O =>
          if String.prefix old s
          then new ++ replace_from old new (String.length old - 1) s'
          else String c (replace_from old new 0 s')
      end
  end.

Fixpoint intersperse_all (new : string) (s : string) : string :=
  match s with
  | EmptyString => new
  | String c s' => new ++ String c (intersperse_all new s')
  end.

Definition replace (old new s : string) : string :=
  match old with
  | EmptyString => intersperse_all new s
  | _ => replace_from old new 0 s
  end.

(** [s.strip()]: leading and trailing white space removed. *)
Fixpoint lstrip (s : string) : string :=
  match s with
  | EmptyString => EmptyString
  | String c s' => if isspace c then lstrip s' else s
  end.

Fixpoint rstrip (s : string) : string :=
  match s with
  | EmptyString => EmptyString
  | String c s' =>
      match rstrip s' with
      | EmptyString => if isspace c then EmptyString else chr c
      | r => String c r
      end
  end.

Definition strip (s : string) : string := rstrip (lstrip s).

(** [sep.join(parts)]. *)
Definition join (sep : string) (parts : list string) : string :=
  String.concat sep parts.

(** [c in s]. *)
Fixpoint contains_char (c : ascii) (s : string) : bool :=
  match s with
  | EmptyString => false
  | String d s' => Ascii.eqb c d || contains_char c s'
  end.

(** [s.rsplit(c, 1)] when [c] occurs in [s]: the text before and after the
    last [c]; [None] when [c] does not occur. *)
Fixpoint rsplit1 (c : ascii) (s : string) : option (string * string) :=
  match s with
  | EmptyString => None
  | String a s' =>
      match rsplit1 c s' with
      | Some (u, t) => Some (String a u, t)
      | None => if Ascii.eqb a c then Some (EmptyString, s') else None
      end
  end.

(** ["%d" % n]. *)
Definition str_of_nat (n : nat) : string :=
  NilZero.string_of_uint (Nat.to_uint n).

(** [fnmatch] for patterns made of literal characters, [?] and [*]; this is
    how [Path.rglob] compares its pattern with the last component of a
    path (on POSIX: case-sensitively, dot files included). *)
Fixpoint fnmatch (pat name : string) : bool :=
  match pat with
  | EmptyString => match name with EmptyString => true | _ => false end
  | String p pat' =>
      if Ascii.eqb p "*" then
        (fix star (n : string) : bool :=
           fnmatch pat' n
           || match n with
              | EmptyString => false
              | String _ n' => star n'
              end) name
      else
        match name with
        | EmptyString => false
        | String c name' =>
            (Ascii.eqb p "?" || Ascii.eqb p c) && fnmatch pat' name'
        end
  end.

End PyStr.

(* ===================================================================== *)
(** ** [sorted] *)
(* ===================================================================== *)

(** [sorted(l, key=key)]: Python's sort is stable and compares the keys with
    [<] on strings, that is code point by code point. *)
Section Sorted.
Context {A : Type} (key : A -> string).

(** [x] goes in front of the first element whose key is not smaller, so
    elements with equal keys keep the order they had in the input. *)
Fixpoint insert_sorted (x : A) (l : list A) : list A :=
  match l with
  | [] => [x]
  | y :: l' =>
      if String.leb (key x) (key y) then x :: l
      else y :: insert_sorted x l'
  end.

Fixpoint sorted (l : list A) : list A :=
  match l with
  | [] => []
  | x :: l' => insert_sorted x (sorted l')
  end.
End Sorted.

(* ===================================================================== *)
(** ** Bytes *)
(* ===================================================================== *)

Definition bytes := list byte.

(** A bytes literal [b'...'] whose characters are all ASCII. *)
Definition b (s : string) : bytes := list_byte_of_string s.

(** [str.encode('utf-8')] for code points below 256: one byte below 128,
    otherwise the two bytes [110xxxxx 10xxxxxx]. *)
Definition utf8_char (c : ascii) : bytes :=
  let n := PyStr.ord c in
  if (n <? 128)%N then [byte_of_ascii c]
  else [byte_of_ascii (ascii_of_N (192 + n / 64));
        byte_of_ascii (ascii_of_N (128 + n mod 64))].

Fixpoint utf8_encode (s : string) : bytes :=
  match s with
  | EmptyString => []
  | String c s' => (utf8_char c ++ utf8_encode s')%list
  end.

(* ===================================================================== *)
(** ** [xml.etree.ElementTree] *)
(* ===================================================================== *)

Module ET.

(** An element: tag, attributes in insertion order, text, children.  A tag
    or an attribute name in a namespace is written [{uri}local]. *)
#[local] Unset Elimination Schemes.
Inductive Element : Type :=
  Elem (tag : string) (attrib : list (string * string))
       (text : option string) (children : list Element).
#[local] Set Elimination Schemes.

Definition tag (e : Element) : string :=
  match e with Elem t _ _ _ => t end.
Definition attrib (e : Element) : list (string * string) :=
  match e with Elem _ a _ _ => a end.
Definition text (e : Element) : option string :=
  match e with Elem _ _ x _ => x end.
Definition children (e : Element) : list Element :=
  match e with Elem _ _ _ cs => cs end.

(** [ET.Element(tag, attrib)]. *)
Definition new_element (t : string) (a : list (string * string)) : Element :=
  Elem t a None [].

(** [elem.text = x]. *)
Definition set_text (e : Element) (x : string) : Element :=
  match e with Elem t a _ cs => Elem t a (Some x) cs end.

(** [ET.SubElement(parent, ...)] appends the new element to the parent. *)
Definition append (parent child : Element) : Element :=
  match parent with Elem t a x cs => Elem t a x (cs ++ [child])%list end.

(** [elem.get(key)]. *)
Fixpoint lookup (k : string) (a : list (string * string)) : option string :=
  match a with
  | [] => None
  | (k', v) :: a' => if String.eqb k k' then Some v else lookup k a'
  end.

Definition get (e : Element) (k : string) : option string :=
  lookup k (attrib e).

(** [elem.findall(tag)]: the children with that tag, in document order. *)
Definition findall (e : Element) (t : string) : list Element :=
  filter (fun c => String.eqb (tag c) t) (children e).

(** [elem.find(tag)]: the first child with that tag. *)
Definition find (e : Element) (t : string) : option Element :=
  hd_error (findall e t).

(** [elem.iter()]: the element and its descendants in document order. *)
Fixpoint iter (e : Element) : list Element :=
  match e with
  | Elem _ _ _ cs => e :: flat_map iter cs
  end.

(** The namespace of a tag or attribute name, if it has one. *)
Definition namespace_of (qname : string) : option string :=
  if PyStr.startswith qname "{" then
    match PyStr.rsplit1 "}" (String.substring 1 (String.length qname - 1) qname) with
    | Some (uri, _) => Some uri
    | None => None
    end
  else None.

(** *** The registry of prefixes *)

(** [_namespace_map] as the module defines it: uri, prefix. *)
Definition default_namespace_map : list (string * string) :=
  [ ("http://www.w3.org/XML/1998/namespace", "xml");
    ("http://www.w3.org/1999/xhtml", "html");
    ("http://www.w3.org/1999/02/22-rdf-syntax-ns#", "rdf");
    ("http://schemas.xmlsoap.org/wsdl/", "wsdl");
    ("http://www.w3.org/2001/XMLSchema", "xs");
    ("http://www.w3.org/2001/XMLSchema-instance", "xsi");
    ("http://purl.org/dc/elements/1.1/", "dc") ].

(** [re.match(r"ns\d+$", prefix)]. *)
Definition is_digit (c : ascii) : bool :=
  let n := PyStr.ord c in ((48 <=? n) && (n <=? 57))%N.

Fixpoint all_digits (s : string) : bool :=
  match s with
  | EmptyString => true
  | String c s' => is_digit c && all_digits s'
  end.

Definition reserved_prefix (prefix : string) : bool :=
  match prefix with
  | String "n" (String "s" (String c rest)) => all_digits (String c rest)
  | _ => false
  end.

(** [ET.register_namespace(prefix, uri)]: entries with the same uri or the
    same prefix are dropped, then the pair is added; [None] is the
    [ValueError] raised for a reserved prefix. *)
Definition register_namespace (prefix uri : string)
    (map : list (string * string)) : option (list (string * string)) :=
  if reserved_prefix prefix then None
  else
    Some (filter (fun '(k, v) => negb (String.eqb k uri || String.eqb v prefix))
                 map
          ++ [(uri, prefix)])%list.

(** *** Serialisation *)

(** [add_qname] of [_namespaces]: the serialised name of [qname] and the
    prefixes in use afterwards ([namespaces]: uri, prefix).  [None] is the
    [ValueError] of unpacking [rsplit] when a name opens a brace it never
    closes. *)
Definition add_qname (map namespaces : list (string * string)) (qname : string)
    : option (string * list (string * string)) :=
  if PyStr.startswith qname "{" then
    match PyStr.rsplit1 "}" (String.substring 1 (String.length qname - 1) qname) with
    | None => None
    | Some (uri, local) =>
        let '(prefix, namespaces') :=
          match lookup uri namespaces with
          | Some prefix => (prefix, namespaces)
          | None =>
              let prefix :=
                match lookup uri map with
                | Some prefix => prefix
                | None => "ns" ++ PyStr.str_of_nat (List.length namespaces)
                end in
              (prefix,
               if String.eqb prefix "xml" then namespaces
               else (namespaces ++ [(uri, prefix)])%list)
          end in
        Some (match prefix with
              | EmptyString => local
              | _ => prefix ++ ":" ++ local
              end,
              namespaces')
    end
  else Some (qname, namespaces).

(** The names [_namespaces] looks at, element by element: the tag, then the
    attribute names. *)
Definition names_of (e : Element) : list string :=
  tag e :: map fst (attrib e).

Fixpoint collect (map namespaces : list (string * string)) (names : list string)
    : option (list (string * string)) :=
  match names with
  | [] => Some namespaces
  | q :: names' =>
      match add_qname map namespaces q with
      | None => None
      | Some (_, namespaces') => collect map namespaces' names'
      end
  end.

(** [_namespaces(elem)]: the prefixes the tree needs. *)
Definition _namespaces (map : list (string * string)) (e : Element)
    : option (list (string * string)) :=
  collect map [] (flat_map names_of (iter e)).

(** [qnames[name]] once [_namespaces] has run. *)
Definition qname_text (map namespaces : list (string * string)) (qname : string)
    : string :=
  match add_qname map namespaces qname with
  | Some (t, _) => t
  | None => qname
  end.

Definition replace_char (c : ascii) (new : string) (s : string) : string :=
  if PyStr.contains_char c s then PyStr.replace (PyStr.chr c) new s else s.

Definition _escape_cdata (s : string) : string :=
  replace_char ">" "&gt;" (replace_char "<" "&lt;" (replace_char "&" "&amp;" s)).

Definition _escape_attrib (s : string) : string :=
  replace_char PyStr.tab "&#09;"
    (replace_char PyStr.newline "&#10;"
      (replace_char PyStr.cr "&#13;"
        (replace_char PyStr.dquote "&quot;"
          (replace_char ">" "&gt;"
            (replace_char "<" "&lt;" (replace_char "&" "&amp;" s)))))).

Definition quoted (s : string) : string :=
  PyStr.chr PyStr.dquote ++ s ++ PyStr.chr PyStr.dquote.

Definition xmlns_decl (item : string * string) : string :=
  let '(uri, prefix) := item in
  " xmlns" ++ match prefix with
              | EmptyString => ""
              | _ => ":" ++ prefix
              end
  ++ "=" ++ quoted (_escape_attrib uri).

Definition attr_text (qn : string -> string) (item : string * string) : string :=
  let '(k, v) := item in " " ++ qn k ++ "=" ++ quoted (_escape_attrib v).

Definition truthy (x : option string) : bool :=
  match x with
  | Some (String _ _) => true
  | _ => false
  end.

(** [_serialize_xml] with [short_empty_elements=True]; [namespaces] is only
    passed for the root, whose start tag declares them ordered by prefix. *)
Fixpoint _serialize_xml (qn : string -> string)
    (namespaces : list (string * string)) (e : Element) : string :=
  match e with
  | Elem t a x cs =>
      "<" ++ qn t
      ++ String.concat "" (map xmlns_decl (sorted snd namespaces))
      ++ String.concat "" (map (attr_text qn) a)
      ++ (if truthy x || negb (Nat.eqb (List.length cs) 0) then
            ">"
            ++ (match x with
                | Some s => if truthy x then _escape_cdata s else ""
                | None => ""
                end)
            ++ String.concat "" (map (_serialize_xml qn []) cs)
            ++ "</" ++ qn t ++ ">"
          else " />")
  end.

(** [ET.tostring(elem, encoding='utf-8', method='xml')]: for this encoding
    [ElementTree.write] emits no XML declaration of its own. *)
Definition tostring (map : list (string * string)) (e : Element) : option bytes :=
  match _namespaces map e with
  | None => None
  | Some namespaces =>
      Some (utf8_encode (_serialize_xml (qname_text map namespaces) namespaces e))
  end.

End ET.

(* ===================================================================== *)
(** ** [generate_manifest] *)
(* ===================================================================== *)

Definition NS_default : string := "http://www.imsglobal.org/xsd/imscp_v1p1".
Definition NS_adlcp : string := "http://www.adlnet.org/xsd/adlcp_v1p3".
Definition NS_xsi : string := "http://www.w3.org/2001/XMLSchema-instance".

(** The three [ET.register_namespace] calls, on the registry as it is when
    the function is entered. *)
Definition register_namespaces (map : list (string * string))
    : option (list (string * string)) :=
  match ET.register_namespace "" NS_default map with
  | None => None
  | Some map1 =>
      match ET.register_namespace "adlcp" NS_adlcp map1 with
      | None => None
      | Some map2 => ET.register_namespace "xsi" NS_xsi map2
      end
  end.

(** One [<file>] child: [ET.SubElement(res, 'file', {'href': ...})]. *)
Definition file_element (f : string) : ET.Element :=
  ET.new_element "file" [("href", PyStr.replace "\" "/" f)].

(** The element tree the function has built when it serialises it.  Every
    [ET.SubElement(parent, ...)] is an [ET.append] to its parent. *)
Definition manifest_tree (title identifier launch_file : string)
    (file_list : list string) : ET.Element :=
  let manifest :=
    ET.new_element "manifest" [("identifier", identifier); ("version", "1")] in
  let schema := ET.set_text (ET.new_element "schema" []) "ADL SCORM" in
  let schemav := ET.set_text (ET.new_element "schemaversion" []) "1.2" in
  let metadata :=
    ET.append (ET.append (ET.new_element "metadata" []) schema) schemav in
  let title_el := ET.set_text (ET.new_element "title" []) title in
  let item_title := ET.set_text (ET.new_element "title" []) title in
  let item :=
    ET.append
      (ET.new_element "item"
         [("identifier", "ITEM-1"); ("identifierref", "RES-1")])
      item_title in
  let org :=
    ET.append
      (ET.append (ET.new_element "organization" [("identifier", "ORG-1")])
                 title_el)
      item in
  let organizations :=
    ET.append (ET.new_element "organizations" [("default", "ORG-1")]) org in
  let res :=
    fold_left (fun res f => ET.append res (file_element f))
      (sorted (fun f => f) file_list)
      (ET.new_element "resource"
         [("identifier", "RES-1");
          ("type", "webcontent");
          ("{http://www.adlnet.org/xsd/adlcp_v1p3}scormtype", "sco");
          ("href", launch_file)]) in
  let resources := ET.append (ET.new_element "resources" []) res in
  ET.append (ET.append (ET.append manifest metadata) organizations) resources.

(** [b'<?xml version="1.0" encoding="UTF-8"?>\n']. *)
Definition xml_declaration : bytes :=
  b ("<?xml version=" ++ ET.quoted "1.0" ++ " encoding=" ++ ET.quoted "UTF-8"
     ++ "?>" ++ PyStr.chr PyStr.newline).

(** [generate_manifest(title, identifier, launch_file, file_list)], run with
    the prefix registry [map]; [None] stands for an exception. *)
Definition generate_manifest (map : list (string * string))
    (title identifier launch_file : string) (file_list : list string)
    : option bytes :=
  match register_namespaces map with
  | None => None
  | Some map' =>
      match ET.tostring map'
              (manifest_tree title identifier launch_file file_list) with
      | None => None
      | Some xml_bytes => Some (xml_declaration ++ xml_bytes)%list
      end
  end.

(* ===================================================================== *)
(** ** [posixpath] and [zipfile] *)
(* ===================================================================== *)

Module PosixPath.

(** [s.split(sep)] for a separator of one character. *)
Fixpoint split (sep : ascii) (s : string) : list string :=
  match s with
  | EmptyString => [EmptyString]
  | String c s' =>
      if Ascii.eqb c sep then EmptyString :: split sep s'
      else
        match split sep s' with
        | comp :: comps => String c comp :: comps
        | [] => [String c EmptyString]
        end
  end.

(** The number of leading slashes [normpath] keeps: none, one, or two when
    the path starts with exactly two. *)
Definition initial_slashes (path : string) : nat :=
  if PyStr.startswith path "/" then
    if PyStr.startswith path "//" && negb (PyStr.startswith path "///")
    then 2 else 1
  else 0.

(** One turn of the loop over the components; [new_comps] is kept with its
    last element first. *)
Definition norm_step (initial : nat) (new_comps : list string) (comp : string)
    : list string :=
  if String.eqb comp "" || String.eqb comp "." then new_comps
  else if negb (String.eqb comp "..")
          || (Nat.eqb initial 0
              && match new_comps with [] => true | _ :: _ => false end)
          || match new_comps with
             | last :: _ => String.eqb last ".."
             | [] => false
             end
       then comp :: new_comps
       else match new_comps with
            | _ :: rest => rest
            | [] => []
            end.

Fixpoint slashes (n : nat) : string :=
  match n with
  | O => EmptyString
  | S n' => String "/" (slashes n')
  end.

(** [os.path.normpath(path)]. *)
Definition normpath (path : string) : string :=
  match path with
  | EmptyString => "."
  | _ =>
      let initial := initial_slashes path in
      let comps := rev (fold_left (norm_step initial) (split "/" path) []) in
      match slashes initial ++ PyStr.join "/" comps with
      | EmptyString => "."
      | p => p
      end
  end.

End PosixPath.

Module ZipFile.

(** [arcname[k:]] for the first [k] at which [arcname[k]] is not [/]. *)
Fixpoint strip_separators (arcname : string) : string :=
  match arcname with
  | String "/" rest => strip_separators rest
  | _ => arcname
  end.

(** [filename[0:filename.find(chr(0))]] when there is a null byte. *)
Fixpoint until_null (filename : string) : string :=
  match filename with
  | EmptyString => EmptyString
  | String c rest =>
      if Ascii.eqb c "000" then EmptyString else String c (until_null rest)
  end.

(** The name [ZipInfo.from_file(filename, arcname)] gives a regular file:
    the path is normalised and loses its leading slashes; [None] is the
    [IndexError] of [arcname[0]] when nothing is left of it. *)
Definition from_file (arcname : string) : option string :=
  match strip_separators (PosixPath.normpath arcname) with
  | EmptyString => None
  | name => Some (until_null name)
  end.

End ZipFile.

(* ===================================================================== *)
(** ** The staging directory *)
(* ===================================================================== *)

(** One entry below [course_root]: its path relative to [course_root] as
    components, whether it is a regular file, and the content of a file. *)
Record entry : Type := mk_entry {
  parts : list string;
  is_file : bool;
  data : bytes
}.

Definition file (ps : list string) (d : bytes) : entry := mk_entry ps true d.
Definition dir (ps : list string) : entry := mk_entry ps false [].

(** The entries of [course_root] in the order [rglob] walks them. *)
Definition tree := list entry.

(** [p.name]. *)
Definition name (e : entry) : string := last (parts e) "".

(** [str(p.relative_to(course_root))]. *)
Definition str_rel (e : entry) : string := PyStr.join "/" (parts e).

(** [course_root.rglob(pattern)]. *)
Definition rglob (pattern : string) (t : tree) : list entry :=
  filter (fun e => PyStr.fnmatch pattern (name e)) t.

(** [(course_root / child).exists()]. *)
Definition exists_at_root (child : string) (t : tree) : bool :=
  existsb (fun e => if list_eq_dec string_dec (parts e) [child]
                    then true else false) t.

(* ===================================================================== *)
(** ** The script *)
(* ===================================================================== *)

(** [uploaded]: the name and the content of the uploaded file.  The upload
    widget hands over a bare file name. *)
Record UploadedFile : Type := mk_upload {
  upload_name : string;
  getbuffer : bytes
}.

Inductive exception : Type :=
  | BadZipFile
  | NotImplementedError
  | RuntimeError
  | ValueError
  | IndexError.

(** What [zipfile.ZipFile(uploaded_path).extractall(course_root)] does. *)
Inductive extraction : Type :=
  | Extracted (t : tree)
  | Raises (e : exception).

(** How a run of the script ends. *)
Inductive outcome : Type :=
  | Info (msg : string)                 (* [st.info]: nothing was uploaded *)
  | Error (msg : string)                (* [st.error] followed by [st.stop] *)
  | Uncaught (e : exception)            (* an exception nobody handles *)
  | Download (file_name : string) (archive : list (string * bytes)).
                                        (* [st.download_button] *)

Definition invalid_archive_msg : string := "Uploaded file is not a valid ZIP.".
Definition no_content_msg : string := "No HTML files found in uploaded content.".
Definition no_upload_msg : string :=
  "Upload an HTML file (.html/.htm) or a ZIP of your course to begin.".

(** [scorm_id = f"com.example.scorm.{uuid.uuid4().hex[:8]}"]. *)
Definition scorm_id (uuid_hex : string) : string :=
  "com.example.scorm." ++ String.substring 0 8 uuid_hex.

(** The name under which a single uploaded document is staged. *)
Definition target_name (uploaded_name : string) : string :=
  if PyStr.endswith_any (PyStr.lower uploaded_name) ["index.html"; "index.htm"]
  then uploaded_name else "index.html".

Definition html_files (t : tree) : list entry :=
  (rglob "*.html" t ++ rglob "*.htm" t)%list.

(** [launch_file]; [first] is [html_files[0]]. *)
Definition launch_file (t : tree) (first : entry) : string :=
  if exists_at_root "index.html" t then "index.html"
  else PyStr.replace "\" "/" (str_rel first).

Definition file_list (t : tree) : list string :=
  map (fun p => PyStr.replace "\" "/" (str_rel p))
      (filter is_file (rglob "*" t)).

(** [zf.write(p, arcname)]: the entry the archive gets for a regular file,
    or [None] when [ZipInfo.from_file] raises. *)
Definition zf_write (p : entry) : option (string * bytes) :=
  match ZipFile.from_file (PyStr.replace "\" "/" (str_rel p)) with
  | None => None
  | Some filename => Some (filename, data p)
  end.

Fixpoint write_all (files : list entry) : option (list (string * bytes)) :=
  match files with
  | [] => Some []
  | p :: files' =>
      match zf_write p with
      | None => None
      | Some written =>
          match write_all files' with
          | None => None
          | Some rest => Some (written :: rest)
          end
      end
  end.

(** The entries the loop over [rglob('*')] adds, in the order of the walk;
    [None] when one of the calls raises [IndexError]. *)
Definition staged_entries (t : tree) : option (list (string * bytes)) :=
  write_all (filter is_file (rglob "*" t)).

Definition pkg_name (course_title : string) : string :=
  PyStr.replace " " "_" (PyStr.strip course_title) ++ "_SCORM.zip".

Section Script.

(** The archive library applied to the uploaded bytes. *)
Variable extractall : bytes -> extraction.

(** Lines 78-90: the content of [course_root] after staging, or the way
    the script ends there. *)
Definition stage (uploaded : UploadedFile) : tree + outcome :=
  if PyStr.endswith (PyStr.lower (upload_name uploaded)) ".zip" then
    match extractall (getbuffer uploaded) with
    | Extracted t => inl t
    | Raises BadZipFile => inr (Error invalid_archive_msg)
    | Raises e => inr (Uncaught e)
    end
  else
    inl [file [target_name (upload_name uploaded)] (getbuffer uploaded)].

(** Lines 92-124 on a staged tree. *)
Definition package (course_title uuid_hex : string) (t : tree) : outcome :=
  match html_files t with
  | [] => Error no_content_msg
  | first :: _ =>
      match generate_manifest ET.default_namespace_map
              course_title (scorm_id uuid_hex) (launch_file t first)
              (file_list t) with
      | None => Uncaught ValueError
      | Some manifest_bytes =>
          match staged_entries t with
          | None => Uncaught IndexError
          | Some written =>
              Download (pkg_name course_title)
                (written ++ [("imsmanifest.xml", manifest_bytes)])%list
          end
      end
  end.

(** The whole script for one run. *)
Definition run (course_title uuid_hex : string)
    (uploaded : option UploadedFile) : outcome :=
  match uploaded with
  | None => Info no_upload_msg
  | Some up =>
      match stage up with
      | inr stop => stop
      | inl t => package course_title uuid_hex t
      end
  end.

End Script.

(* ===================================================================== *)
(** ** Notions used in the statements *)
(* ===================================================================== *)

(** The tree in one piece. *)
Definition manifest_shape (title identifier launch_file : string)
    (files : list ET.Element) : ET.Element :=
  ET.Elem "manifest" [("identifier", identifier); ("version", "1")] None
    [ ET.Elem "metadata" [] None
        [ ET.Elem "schema" [] (Some "ADL SCORM") [];
          ET.Elem "schemaversion" [] (Some "1.2") [] ];
      ET.Elem "organizations" [("default", "ORG-1")] None
        [ ET.Elem "organization" [("identifier", "ORG-1")] None
            [ ET.Elem "title" [] (Some title) [];
              ET.Elem "item"
                [("identifier", "ITEM-1"); ("identifierref", "RES-1")] None
                [ ET.Elem "title" [] (Some title) [] ] ] ];
      ET.Elem "resources" [] None
        [ ET.Elem "resource"
            [("identifier", "RES-1");
             ("type", "webcontent");
             ("{http://www.adlnet.org/xsd/adlcp_v1p3}scormtype", "sco");
             ("href", launch_file)]
            None files ] ].

(** Induction on elements that reaches into the children. *)
Section ElementInduction.
Variable P : ET.Element -> Prop.
Hypothesis step :
  forall t a x cs, Forall P cs -> P (ET.Elem t a x cs).

Fixpoint Element_induction (e : ET.Element) : P e :=
  match e with
  | ET.Elem t a x cs =>
      step t a x cs
        ((fix all (l : list ET.Element) : Forall P l :=
            match l with
            | [] => Forall_nil P
            | c :: l' => Forall_cons c (Element_induction c) (all l')
            end) cs)
  end.
End ElementInduction.

(** [s.replace(c, new)] for a single character [c], character by
    character. *)
Fixpoint subst_char (c : ascii) (new : string) (s : string) : string :=
  match s with
  | EmptyString => EmptyString
  | String d s' =>
      if Ascii.eqb d c then new ++ subst_char c new s'
      else String d (subst_char c new s')
  end.

(** [p] occurs in [l] at offset 0. *)
Fixpoint is_prefix (p l : bytes) : bool :=
  match p, l with
  | [], _ => true
  | _ :: _, [] => false
  | x :: p', y :: l' => Byte.eqb x y && is_prefix p' l'
  end.

(** The number of offsets of [l] at which [p] occurs. *)
Fixpoint count_sub (p l : bytes) : nat :=
  match l with
  | [] => if is_prefix p [] then 1 else 0
  | _ :: l' => (if is_prefix p l then 1 else 0) + count_sub p l'
  end.

(** Every [<] is followed by a byte, and that byte is not [?]. *)
Fixpoint tidy (l : bytes) : bool :=
  match l with
  | [] => true
  | x :: l' =>
      (if Byte.eqb "<" x
       then match l' with
            | y :: _ => negb (Byte.eqb "?" y)
            | [] => false
            end
       else true)
      && tidy l'
  end.

Definition no_lt (s : string) : bool := negb (PyStr.contains_char "<" s).

(** A tag that may follow [<]: not empty, no [<] inside, no [?] in front. *)
Definition tag_ok (s : string) : bool :=
  no_lt s
  && match s with
     | EmptyString => false
     | String c _ => negb (Ascii.eqb "?" c)
     end.

(** All names of the tree are written without [<], and no tag starts with
    [?]. *)
Fixpoint well_named (qn : string -> string) (e : ET.Element) : bool :=
  match e with
  | ET.Elem t a _ cs =>
      tag_ok (qn t)
      && forallb (fun kv => no_lt (qn (fst kv))) a
      && forallb (well_named qn) cs
  end.

(** The inverse of [utf8_encode] on the byte sequences it produces; [None]
    for anything else. *)
Fixpoint utf8_decode (l : bytes) : option string :=
  match l with
  | [] => Some EmptyString
  | x :: l' =>
      let n := Byte.to_N x in
      if (n <? 128)%N then
        option_map (String (ascii_of_byte x)) (utf8_decode l')
      else
        match l' with
        | y :: l'' =>
            let m := Byte.to_N y in
            if ((194 <=? n) && (n <=? 195) && (128 <=? m) && (m <=? 191))%N
            then option_map (String (ascii_of_N ((n - 192) * 64 + (m - 128))))
                            (utf8_decode l'')
            else None
        | [] => None
        end
  end.

(** The prefixes the manifest turns out to declare. *)
Definition adlcp_only : list (string * string) := [(NS_adlcp, "adlcp")].

(** The [resource] element of a manifest: [manifest/resources/resource]. *)
Definition resource_of (m : ET.Element) : option ET.Element :=
  match ET.find m "resources" with
  | Some rs => ET.find rs "resource"
  | None => None
  end.

(** The [href] attributes of [manifest/resources/resource/file], in document
    order. *)
Definition file_hrefs (m : ET.Element) : list string :=
  match resource_of m with
  | Some r =>
      flat_map (fun f => match ET.get f "href" with
                         | Some h => [h]
                         | None => []
                         end)
               (ET.findall r "file")
  | None => []
  end.

(** The manifest of the example of section 8 of the specification. *)
Definition demo_manifest_text : string :=
  "<manifest xmlns:adlcp=" ++ ET.quoted "http://www.adlnet.org/xsd/adlcp_v1p3"
  ++ " identifier=" ++ ET.quoted "com.example.scorm.0a1b2c3d"
  ++ " version=" ++ ET.quoted "1" ++ ">"
  ++ "<metadata><schema>ADL SCORM</schema>"
  ++ "<schemaversion>1.2</schemaversion></metadata>"
  ++ "<organizations default=" ++ ET.quoted "ORG-1" ++ ">"
  ++ "<organization identifier=" ++ ET.quoted "ORG-1" ++ ">"
  ++ "<title>Demo Course</title>"
  ++ "<item identifier=" ++ ET.quoted "ITEM-1"
  ++ " identifierref=" ++ ET.quoted "RES-1" ++ ">"
  ++ "<title>Demo Course</title></item></organization></organizations>"
  ++ "<resources><resource identifier=" ++ ET.quoted "RES-1"
  ++ " type=" ++ ET.quoted "webcontent"
  ++ " adlcp:scormtype=" ++ ET.quoted "sco"
  ++ " href=" ++ ET.quoted "index.html" ++ ">"
  ++ "<file href=" ++ ET.quoted "index.html" ++ " />"
  ++ "</resource></resources></manifest>".

Fixpoint map_chars (f : ascii -> ascii) (s : string) : string :=
  match s with
  | EmptyString => EmptyString
  | String c s' => String (f c) (map_chars f s')
  end.

(** Every space (U+0020) becomes an underscore. *)
Definition underscore_spaces (s : string) : string :=
  map_chars (fun c => if Ascii.eqb c " " then "_"%char else c) s.

(** The sanitisation as the specification words it: every white-space
    character becomes an underscore, everything else passes through. *)
Definition underscore_whitespace (s : string) : string :=
  map_chars (fun c => if PyStr.isspace c then "_"%char else c) s.

Definition pkg_name_as_specified (course_title : string) : string :=
  underscore_whitespace course_title ++ "_SCORM.zip".

Fixpoint all_space (s : string) : bool :=
  match s with
  | EmptyString => true
  | String c s' => PyStr.isspace c && all_space s'
  end.

Definition starts_with_space (s : string) : bool :=
  match s with
  | EmptyString => false
  | String c _ => PyStr.isspace c
  end.

Fixpoint ends_with_space (s : string) : bool :=
  match s with
  | EmptyString => false
  | String c EmptyString => PyStr.isspace c
  | String _ s' => ends_with_space s'
  end.

(** The name of an entry ends in [.html] or [.htm]. *)
Definition html_name (e : entry) : bool :=
  PyStr.fnmatch "*.html" (name e) || PyStr.fnmatch "*.htm" (name e).

(** An HTML/HTM document: a regular file with such a name. *)
Definition is_html_document (e : entry) : bool := is_file e && html_name e.

(** The launch file the script settles on, when it gets that far. *)
Definition chosen_launch (t : tree) : option string :=
  match html_files t with
  | [] => None
  | first :: _ => Some (launch_file t first)
  end.

(** The selection policy as the specification words it: a file
    [index.html] at the root if there is one, otherwise the first HTML/HTM
    document in the order of the walk. *)
Definition launch_as_specified (t : tree) : option string :=
  if existsb (fun e => is_file e
                       && if list_eq_dec string_dec (parts e) ["index.html"]
                          then true else false) t
  then Some "index.html"
  else option_map (fun e => PyStr.replace "\" "/" (str_rel e))
                  (List.find is_html_document t).

(** Staged trees used as examples, in the order of a top-down walk. *)
Definition tree_htm_before_html : tree :=
  [ file ["a.htm"] (b "<html>a</html>");
    file ["b.html"] (b "<html>b</html>");
    dir ["docs"];
    file ["docs"; "index.html"] (b "<html>docs</html>") ].

Definition tree_docs_only : tree :=
  [ file ["style.css"] (b "body {}");
    dir ["docs"];
    file ["docs"; "index.html"] (b "<html>docs</html>") ].

Definition tree_directory_named_html : tree :=
  [ dir ["notes.html"];
    file ["notes.html"; "readme.txt"] (b "plain text") ].

Definition tree_empty_directory_named_html : tree :=
  [ dir ["lessons.html"] ].

Definition tree_with_manifest : tree :=
  [ file ["imsmanifest.xml"] (b "<manifest/>");
    file ["index.html"] (b "<html></html>") ].

Definition demo_uuid_hex : string := "0a1b2c3d4e5f60718293a4b5c6d7e8f9".

Definition demo_zip : UploadedFile := mk_upload "course.zip" (b "PK").

(** [x] may stand before [y] in a list sorted by [key]. *)
Definition key_le {A : Type} (key : A -> string) (x y : A) : Prop :=
  String.leb (key x) (key y) = true.

(** A character of [uuid.uuid4().hex]: a digit or one of [a]..[f]. *)
Definition is_hex_digit (c : ascii) : bool :=
  let n := PyStr.ord c in
  ((48 <=? n) && (n <=? 57) || (97 <=? n) && (n <=? 102))%N.

Fixpoint all_hex (s : string) : bool :=
  match s with
  | EmptyString => true
  | String c s' => is_hex_digit c && all_hex s'
  end.

(** [p] is equal to the end of [n], from some offset on. *)
Fixpoint has_suffix (p n : string) : bool :=
  String.eqb p n
  || match n with
     | EmptyString => false
     | String _ n' => has_suffix p n'
     end.

(** A pattern without [*] and [?]. *)
Fixpoint literal_pattern (p : string) : bool :=
  match p with
  | EmptyString => true
  | String c p' =>
      negb (Ascii.eqb c "*") && negb (Ascii.eqb c "?") && literal_pattern p'
  end.

(** How often the byte [c] occurs in [l]. *)
Fixpoint count_byte (c : byte) (l : bytes) : nat :=
  match l with
  | [] => 0
  | x :: l' => (if Byte.eqb c x then 1 else 0) + count_byte c l'
  end.

(** The number of start, end and empty-element tags the serialiser writes
    for an element. *)
Fixpoint tag_marks (e : ET.Element) : nat :=
  match e with
  | ET.Elem _ _ x cs =>
      if ET.truthy x || negb (Nat.eqb (List.length cs) 0)
      then 2 + list_sum (map tag_marks cs)
      else 1
  end.

(** A path component as real directory entries have it and that needs no
    normalisation: not empty, not [.] or [..], and without slash,
    backslash or null character. *)
Definition plain_component (c : string) : bool :=
  negb (String.eqb c "") && negb (String.eqb c ".") && negb (String.eqb c "..")
  && negb (PyStr.contains_char "/" c)
  && negb (PyStr.contains_char "\" c)
  && negb (PyStr.contains_char "000" c).

Definition plain_parts (ps : list string) : bool :=
  match ps with
  | [] => false
  | _ :: _ => forallb plain_component ps
  end.

(** The bytes [p] occur somewhere in [l]. *)
Definition occurs_in (p l : bytes) : Prop :=
  exists pre post, l = (pre ++ p ++ post)%list.

(** The empty-element tag the serialiser writes for the entry [f] of the
    file list. *)
Definition file_tag (f : string) : string :=
  "<file href="
  ++ ET.quoted (ET._escape_attrib (PyStr.replace "\" "/" f)) ++ " />".

(** A staged tree with a file whose name is a single backslash. *)
Definition tree_with_backslash_file : tree :=
  [ file ["imsmanifest.xml"] (b "<manifest/>");
    file ["index.html"] (b "<html></html>");
    file ["\"] (b "x") ].


(** [str(p.relative_to(course_root))] on a platform whose path separator
    is [sep]: [/] on POSIX, [\] on Windows. *)
Definition str_rel_on (sep : string) (e : entry) : string :=
  PyStr.join sep (parts e).

(** Lines 104-108 on such a platform. *)
Definition file_list_on (sep : string) (t : tree) : list string :=
  map (fun p => PyStr.replace "\" "/" (str_rel_on sep p))
      (filter is_file (rglob "*" t)).

(** A staged tree with nested files and a directory. *)
Definition tree_nested : tree :=
  [ file ["index.html"] (b "<html></html>");
    dir ["media"];
    file ["media"; "b.png"] (b "png");
    file ["media"; "a.png"] (b "png") ].


(** A ZIP archive with one member, [index.html], stored with compression
    method 99, which [zipfile] does not support: local file header, the 13
    bytes of the member, central directory, end-of-central-directory
    record. *)
Definition zip_with_method_99 : bytes :=
  [ x50; x4b; x03; x04; x14; x00; x00; x00; x63; x00; x00; x00; x21; x00;
    x1f; x87; x1b; x60; x0d; x00; x00; x00; x0d; x00; x00; x00; x0a; x00;
    x00; x00; x69; x6e; x64; x65; x78; x2e; x68; x74; x6d; x6c;
    x3c; x68; x74; x6d; x6c; x3e; x3c; x2f; x68; x74; x6d; x6c; x3e;
    x50; x4b; x01; x02; x14; x03; x14; x00; x00; x00; x63; x00; x00; x00;
    x21; x00; x1f; x87; x1b; x60; x0d; x00; x00; x00; x0d; x00; x00; x00;
    x0a; x00; x00; x00; x00; x00; x00; x00; x00; x00; x00; x00; x80; x01;
    x00; x00; x00; x00; x69; x6e; x64; x65; x78; x2e; x68; x74; x6d; x6c;
    x50; x4b; x05; x06; x00; x00; x00; x00; x01; x00; x01; x00; x38; x00;
    x00; x00; x35; x00; x00; x00; x00; x00 ].

Definition unsupported_zip : UploadedFile :=
  mk_upload "course.zip" zip_with_method_99.

(** The method field of the first local file header, bytes 8 and 9,
    little-endian. *)
Definition first_member_method (data : bytes) : option N :=
  match data with
  | x50 :: x4b :: x03 :: x04 :: _ :: _ :: _ :: _ :: lo :: hi :: _ =>
      Some (Byte.to_N lo + 256 * Byte.to_N hi)%N
  | _ => None
  end.

(** An archive library that answers as [zipfile] does on the two archives
    of the examples: the bytes [PK] alone are no ZIP file, and the member
    of [zip_with_method_99] cannot be decompressed.  No example asks it
    about other bytes. *)
Definition extractall_of_examples (data : bytes) : extraction :=
  match first_member_method data with
  | Some 99%N => Raises NotImplementedError
  | _ => Raises BadZipFile
  end.


(** The characters an XML 1.0 document may hold (production [Char]) among
    the code points below 256: tab, line feed, carriage return, and
    U+0020 and above. *)
Definition xml_char (c : ascii) : bool :=
  Ascii.eqb c PyStr.tab || Ascii.eqb c PyStr.newline || Ascii.eqb c PyStr.cr
  || (32 <=? PyStr.ord c)%N.

Fixpoint xml_chars (s : string) : bool :=
  match s with
  | EmptyString => true
  | String c s' => xml_char c && xml_chars s'
  end.

(** A title with the control character U+0001 between its two words. *)
Definition title_with_control_character : string :=
  "Demo" ++ String "001" "Course".

(** The manifest of the example of section 8 of the specification, with
    [title_text] as the escaped title, for a title that is not empty. *)
Definition manifest_text_titled (title_text : string) : string :=
  "<manifest xmlns:adlcp=" ++ ET.quoted "http://www.adlnet.org/xsd/adlcp_v1p3"
  ++ " identifier=" ++ ET.quoted "com.example.scorm.0a1b2c3d"
  ++ " version=" ++ ET.quoted "1" ++ ">"
  ++ "<metadata><schema>ADL SCORM</schema>"
  ++ "<schemaversion>1.2</schemaversion></metadata>"
  ++ "<organizations default=" ++ ET.quoted "ORG-1" ++ ">"
  ++ "<organization identifier=" ++ ET.quoted "ORG-1" ++ ">"
  ++ "<title>" ++ title_text ++ "</title>"
  ++ "<item identifier=" ++ ET.quoted "ITEM-1"
  ++ " identifierref=" ++ ET.quoted "RES-1" ++ ">"
  ++ "<title>" ++ title_text ++ "</title></item></organization></organizations>"
  ++ "<resources><resource identifier=" ++ ET.quoted "RES-1"
  ++ " type=" ++ ET.quoted "webcontent"
  ++ " adlcp:scormtype=" ++ ET.quoted "sco"
  ++ " href=" ++ ET.quoted "index.html" ++ ">"
  ++ "<file href=" ++ ET.quoted "index.html" ++ " />"
  ++ "</resource></resources></manifest>".

(* ===================================================================== *)
(** ** The string functions on examples *)
(* ===================================================================== *)

Example lower_mixed : PyStr.lower "INDEX.Html" = "index.html".
Proof. reflexivity. Qed.

Example endswith_tuple :
  PyStr.endswith_any "myindex.html" ["index.html"; "index.htm"] = true.
Proof. reflexivity. Qed.

Example replace_spaces : PyStr.replace " " "_" "a  b c" = "a__b_c".
Proof. reflexivity. Qed.

Example replace_empty_old : PyStr.replace "" "-" "ab" = "-a-b-".
Proof. reflexivity. Qed.

Example replace_no_overlap : PyStr.replace "aa" "b" "aaaaa" = "bba".
Proof. reflexivity. Qed.

Example strip_both : PyStr.strip "  a b  " = "a b".
Proof. reflexivity. Qed.

Example fnmatch_html :
  PyStr.fnmatch "*.html" "docs.html" = true
  /\ PyStr.fnmatch "*.html" "a.htm" = false
  /\ PyStr.fnmatch "*.htm" "a.html" = false
  /\ PyStr.fnmatch "*.html" ".html" = true
  /\ PyStr.fnmatch "*.html" "A.HTML" = false.
Proof. repeat split; reflexivity. Qed.

Example rsplit_clark :
  PyStr.rsplit1 "}" "http://a/{b}c}tag" = Some ("http://a/{b}c", "tag").
Proof. reflexivity. Qed.

(* ===================================================================== *)
(** ** The order on strings and [sorted] *)
(* ===================================================================== *)

Section StringOrder.

Lemma ascii_compare_refl (a : ascii) : Ascii.compare a a = Eq.
Proof. unfold Ascii.compare. apply N.compare_refl. Qed.

Lemma ascii_compare_lt_trans (a c d : ascii) :
  Ascii.compare a c = Lt -> Ascii.compare c d = Lt -> Ascii.compare a d = Lt.
Proof.
  unfold Ascii.compare. rewrite !N.compare_lt_iff. apply N.lt_trans.
Qed.

Lemma string_compare_refl (s : string) : String.compare s s = Eq.
Proof.
  induction s as [|a s IH]; simpl; [reflexivity|].
  now rewrite ascii_compare_refl.
Qed.

Lemma string_compare_lt_trans (s1 : string) :
  forall s2 s3,
    String.compare s1 s2 = Lt -> String.compare s2 s3 = Lt ->
    String.compare s1 s3 = Lt.
Proof.
  induction s1 as [|a s1 IH]; intros [|c s2] [|d s3]; simpl;
    try discriminate; try reflexivity.
  destruct (Ascii.compare a c) eqn:Hac; try discriminate;
    destruct (Ascii.compare c d) eqn:Hcd; try discriminate; intros H12 H23.
  - apply Ascii.compare_eq_iff in Hac, Hcd. subst.
    rewrite ascii_compare_refl. eauto.
  - apply Ascii.compare_eq_iff in Hac. subst. now rewrite Hcd.
  - apply Ascii.compare_eq_iff in Hcd. subst. now rewrite Hac.
  - now rewrite (ascii_compare_lt_trans _ _ _ Hac Hcd).
Qed.

Lemma string_leb_trans (s1 s2 s3 : string) :
  String.leb s1 s2 = true -> String.leb s2 s3 = true ->
  String.leb s1 s3 = true.
Proof.
  unfold String.leb.
  destruct (String.compare s1 s2) eqn:H12; try discriminate;
    destruct (String.compare s2 s3) eqn:H23; try discriminate; intros _ _.
  - apply String.compare_eq_iff in H12, H23. subst.
    now rewrite string_compare_refl.
  - apply String.compare_eq_iff in H12. subst. now rewrite H23.
  - apply String.compare_eq_iff in H23. subst. now rewrite H12.
  - now rewrite (string_compare_lt_trans _ _ _ H12 H23).
Qed.

Lemma string_leb_false (s1 s2 : string) :
  String.leb s1 s2 = false -> String.leb s2 s1 = true.
Proof.
  intros H. destruct (String.leb_total s1 s2) as [H'|H']; congruence.
Qed.

End StringOrder.

Section SortedFacts.
Context {A : Type} (key : A -> string).

Lemma insert_sorted_perm (x : A) (l : list A) :
  Permutation (x :: l) (insert_sorted key x l).
Proof.
  induction l as [|y l IH]; simpl; [reflexivity|].
  destruct (String.leb (key x) (key y)); [reflexivity|].
  rewrite perm_swap. now constructor.
Qed.

Lemma sorted_perm (l : list A) : Permutation l (sorted key l).
Proof.
  induction l as [|x l IH]; simpl; [constructor|].
  rewrite <- insert_sorted_perm. now constructor.
Qed.

Lemma insert_sorted_ordered (x : A) (l : list A) :
  StronglySorted (key_le key) l -> StronglySorted (key_le key) (insert_sorted key x l).
Proof.
  induction 1 as [|y l Hl IH Hy]; simpl.
  - repeat constructor.
  - destruct (String.leb (key x) (key y)) eqn:Hxy.
    + constructor; [now constructor|].
      constructor; [exact Hxy|].
      eapply Forall_impl; [|exact Hy].
      intros z Hz. unfold key_le in *. eauto using string_leb_trans.
    + constructor; [exact IH|].
      eapply Permutation_Forall; [apply insert_sorted_perm|].
      constructor; [|exact Hy].
      now apply string_leb_false.
Qed.

Lemma sorted_ordered (l : list A) : StronglySorted (key_le key) (sorted key l).
Proof.
  induction l as [|x l IH]; simpl; [constructor|].
  now apply insert_sorted_ordered.
Qed.

Lemma sorted_In (l : list A) (x : A) : In x (sorted key l) <-> In x l.
Proof.
  split; apply Permutation_in; [symmetry|]; apply sorted_perm.
Qed.

End SortedFacts.

(* ===================================================================== *)
(** ** The element tree of the manifest *)
(* ===================================================================== *)

Lemma fold_left_append_files (l : list string) :
  forall t a x cs,
    fold_left (fun res f => ET.append res (file_element f)) l (ET.Elem t a x cs)
    = ET.Elem t a x (cs ++ map file_element l).
Proof.
  induction l as [|f l IH]; intros t a x cs; simpl.
  - now rewrite app_nil_r.
  - rewrite IH, <- app_assoc. reflexivity.
Qed.

Lemma manifest_tree_shape (title identifier launch : string) (fl : list string) :
  manifest_tree title identifier launch fl
  = manifest_shape title identifier launch
      (map file_element (sorted (fun f => f) fl)).
Proof.
  unfold manifest_tree, manifest_shape, ET.new_element.
  rewrite fold_left_append_files. reflexivity.
Qed.

(* ===================================================================== *)
(** ** The prefix registry *)
(* ===================================================================== *)

Lemma lookup_app_none (k : string) (l1 l2 : list (string * string)) :
  ET.lookup k l1 = None -> ET.lookup k (l1 ++ l2) = ET.lookup k l2.
Proof.
  induction l1 as [|[k' v] l1 IH]; simpl; [reflexivity|].
  destruct (String.eqb k k'); [discriminate|exact IH].
Qed.

Lemma lookup_filter_none (k : string) (f : string * string -> bool)
    (l : list (string * string)) :
  ET.lookup k l = None -> ET.lookup k (filter f l) = None.
Proof.
  induction l as [|[k' v] l IH]; simpl; [reflexivity|].
  destruct (String.eqb k k') eqn:E; [discriminate|]. intros H.
  destruct (f (k', v)); simpl; [rewrite E|]; auto.
Qed.

Lemma lookup_filter_key (k : string) (f : string * string -> bool)
    (l : list (string * string)) :
  (forall v, f (k, v) = false) -> ET.lookup k (filter f l) = None.
Proof.
  intros Hf. induction l as [|[k' v] l IH]; simpl; [reflexivity|].
  destruct (f (k', v)) eqn:E; [|exact IH]. simpl.
  destruct (String.eqb_spec k k') as [->|_]; [|exact IH].
  now rewrite Hf in E.
Qed.

(** The three registrations never raise, and afterwards the three
    namespaces have their prefixes, whatever was registered before. *)
Lemma register_namespaces_spec (reg : list (string * string)) :
  exists reg',
    register_namespaces reg = Some reg'
    /\ ET.lookup NS_default reg' = Some ""
    /\ ET.lookup NS_adlcp reg' = Some "adlcp"
    /\ ET.lookup NS_xsi reg' = Some "xsi".
Proof.
  unfold register_namespaces, ET.register_namespace. simpl.
  eexists; split; [reflexivity|].
  rewrite !filter_app.
  change (filter _ [(NS_adlcp, "adlcp")]) with [(NS_adlcp, "adlcp")].
  change (filter _ (filter _ [(NS_default, "")])) with [(NS_default, "")].
  rewrite <- !app_assoc.
  repeat split; (rewrite lookup_app_none; [reflexivity|]).
  - apply lookup_filter_none, lookup_filter_none, lookup_filter_key.
    intros v. unfold NS_default. now rewrite String.eqb_refl.
  - apply lookup_filter_none, lookup_filter_key.
    intros v. unfold NS_adlcp. now rewrite String.eqb_refl.
  - apply lookup_filter_key.
    intros v. unfold NS_xsi. now rewrite String.eqb_refl.
Qed.

(* ===================================================================== *)
(** ** The namespaces the manifest declares *)
(* ===================================================================== *)

Lemma collect_unqualified (map ns : list (string * string)) (names : list string) :
  Forall (fun q => PyStr.startswith q "{" = false) names ->
  ET.collect map ns names = Some ns.
Proof.
  induction 1 as [|q names Hq _ IH]; simpl; [reflexivity|].
  unfold ET.add_qname. now rewrite Hq.
Qed.

Lemma file_names_unqualified (fs : list string) :
  Forall (fun q => PyStr.startswith q "{" = false)
    (flat_map ET.names_of (flat_map ET.iter (map file_element fs))).
Proof.
  induction fs as [|f fs IH]; simpl; [constructor|].
  repeat (constructor; [reflexivity|]). exact IH.
Qed.

(** Only the ADL namespace is in use in the tree, through the attribute
    [scormtype]; no tag carries a namespace. *)
Lemma namespaces_manifest (map' : list (string * string))
    (title identifier launch : string) (fs : list string) :
  ET.lookup NS_adlcp map' = Some "adlcp" ->
  ET._namespaces map'
    (manifest_shape title identifier launch (map file_element fs))
  = Some [(NS_adlcp, "adlcp")].
Proof.
  intros Hreg. unfold ET._namespaces. simpl.
  change "http://www.adlnet.org/xsd/adlcp_v1p3" with NS_adlcp.
  rewrite Hreg. simpl. rewrite !app_nil_r.
  apply collect_unqualified, file_names_unqualified.
Qed.

(* ===================================================================== *)
(** ** Replacing one character *)
(* ===================================================================== *)

Lemma replace_chr (c : ascii) (new s : string) :
  PyStr.replace (PyStr.chr c) new s = subst_char c new s.
Proof.
  unfold PyStr.replace, PyStr.chr.
  induction s as [|d s IH]; simpl; [reflexivity|].
  destruct (ascii_dec c d) as [->|Hne].
  - rewrite Ascii.eqb_refl.
    replace (String.prefix "" s) with true by (now destruct s).
    now rewrite IH.
  - replace (Ascii.eqb d c) with false
      by (symmetry; apply Ascii.eqb_neq; congruence).
    now rewrite IH.
Qed.

Lemma contains_char_app (c : ascii) (s1 s2 : string) :
  PyStr.contains_char c (s1 ++ s2)
  = PyStr.contains_char c s1 || PyStr.contains_char c s2.
Proof.
  induction s1 as [|d s1 IH]; simpl; [reflexivity|].
  now rewrite IH, orb_assoc.
Qed.

Lemma subst_char_absent (c : ascii) (new s : string) :
  PyStr.contains_char c s = false -> subst_char c new s = s.
Proof.
  induction s as [|d s IH]; simpl; [reflexivity|].
  intros H. apply orb_false_elim in H as [Hd Hs].
  rewrite Ascii.eqb_sym, Hd. now rewrite IH.
Qed.

(** After the replacement [c] is gone, unless [new] brings it back. *)
Lemma subst_char_removes (c : ascii) (new s : string) :
  PyStr.contains_char c new = false ->
  PyStr.contains_char c (subst_char c new s) = false.
Proof.
  intros Hnew. induction s as [|d s IH]; simpl; [reflexivity|].
  destruct (Ascii.eqb d c) eqn:E.
  - now rewrite contains_char_app, Hnew, IH.
  - simpl. now rewrite Ascii.eqb_sym, E, IH.
Qed.

(** A character that is in neither [s] nor [new] is not in the result. *)
Lemma subst_char_keeps_out (c d : ascii) (new s : string) :
  PyStr.contains_char d new = false ->
  PyStr.contains_char d s = false ->
  PyStr.contains_char d (subst_char c new s) = false.
Proof.
  intros Hnew. induction s as [|a s IH]; simpl; [reflexivity|].
  intros H. apply orb_false_elim in H as [Ha Hs].
  destruct (Ascii.eqb a c).
  - now rewrite contains_char_app, Hnew, IH.
  - simpl. now rewrite Ha, IH.
Qed.

Lemma replace_char_subst (c : ascii) (new s : string) :
  ET.replace_char c new s = subst_char c new s.
Proof.
  unfold ET.replace_char.
  destruct (PyStr.contains_char c s) eqn:E.
  - apply replace_chr.
  - symmetry. now apply subst_char_absent.
Qed.

Lemma escape_cdata_no_lt (s : string) : no_lt (ET._escape_cdata s) = true.
Proof.
  unfold no_lt, ET._escape_cdata. rewrite !replace_char_subst.
  rewrite subst_char_keeps_out; [reflexivity..|].
  now apply subst_char_removes.
Qed.

Lemma escape_attrib_no_lt (s : string) : no_lt (ET._escape_attrib s) = true.
Proof.
  unfold no_lt, ET._escape_attrib. rewrite !replace_char_subst.
  do 5 (rewrite subst_char_keeps_out; [reflexivity|reflexivity|]).
  now rewrite subst_char_removes.
Qed.

(* ===================================================================== *)
(** ** UTF-8 *)
(* ===================================================================== *)

Lemma utf8_encode_app (s1 s2 : string) :
  utf8_encode (s1 ++ s2) = (utf8_encode s1 ++ utf8_encode s2)%list.
Proof.
  induction s1 as [|c s1 IH]; simpl; [reflexivity|].
  now rewrite IH, app_assoc.
Qed.

Lemma utf8_char_lt (c : ascii) :
  existsb (Byte.eqb "<") (utf8_char c) = Ascii.eqb "<" c.
Proof.
  destruct c as [[] [] [] [] [] [] [] []]; reflexivity.
Qed.

Lemma utf8_encode_no_lt (s : string) :
  no_lt s = true -> existsb (Byte.eqb "<") (utf8_encode s) = false.
Proof.
  unfold no_lt. rewrite negb_true_iff.
  induction s as [|c s IH]; [reflexivity|].
  cbn [utf8_encode PyStr.contains_char].
  intros H. apply orb_false_elim in H as [Hc Hs].
  now rewrite existsb_app, utf8_char_lt, Hc, IH.
Qed.

Lemma utf8_decode_char (c : ascii) (l : bytes) :
  utf8_decode (utf8_char c ++ l)%list = option_map (String c) (utf8_decode l).
Proof.
  destruct c as [[] [] [] [] [] [] [] []]; reflexivity.
Qed.

(** Decoding gives the text back. *)
Lemma utf8_decode_encode (s : string) : utf8_decode (utf8_encode s) = Some s.
Proof.
  induction s as [|c s IH]; [reflexivity|].
  cbn [utf8_encode]. now rewrite utf8_decode_char, IH.
Qed.

(* ===================================================================== *)
(** ** Where [<] can stand in the output *)
(* ===================================================================== *)

Lemma tidy_app (l1 l2 : bytes) :
  tidy l1 = true -> tidy l2 = true -> tidy (l1 ++ l2)%list = true.
Proof.
  induction l1 as [|x l1 IH]; simpl; [auto|].
  intros H1 H2. apply andb_true_iff in H1 as [Hx Hl1].
  rewrite (IH Hl1 H2), andb_true_r.
  destruct (Byte.eqb "<" x); [|reflexivity].
  destruct l1; [discriminate|exact Hx].
Qed.

Lemma tidy_without_lt (l : bytes) :
  existsb (Byte.eqb "<") l = false -> tidy l = true.
Proof.
  induction l as [|x l IH]; simpl; [reflexivity|].
  intros H. apply orb_false_elim in H as [Hx Hl].
  now rewrite Hx, IH.
Qed.

Lemma tidy_text (s : string) : no_lt s = true -> tidy (utf8_encode s) = true.
Proof. intros H. now apply tidy_without_lt, utf8_encode_no_lt. Qed.

(** In tidy bytes the two bytes [<?] occur nowhere. *)
Lemma tidy_count (l : bytes) : tidy l = true -> count_sub (b "<?") l = 0.
Proof.
  induction l as [|x l IH]; simpl; [reflexivity|].
  intros H. apply andb_true_iff in H as [Hx Hl]. rewrite (IH Hl).
  destruct (Byte.eqb "<" x); [|reflexivity].
  destruct l as [|y l]; [discriminate|].
  apply negb_true_iff in Hx. simpl. now rewrite Hx.
Qed.


Lemma no_lt_app (s1 s2 : string) : no_lt (s1 ++ s2) = no_lt s1 && no_lt s2.
Proof. unfold no_lt. now rewrite contains_char_app, negb_orb. Qed.

Lemma tidy_concat {A : Type} (f : A -> string) (l : list A) :
  Forall (fun x => tidy (utf8_encode (f x)) = true) l ->
  tidy (utf8_encode (String.concat "" (map f l))) = true.
Proof.
  induction 1 as [|x l Hx Hl IH]; [reflexivity|].
  destruct l as [|y l]; [exact Hx|].
  change (tidy (utf8_encode (f x ++ "" ++ String.concat "" (map f (y :: l))))
          = true).
  rewrite utf8_encode_app. apply tidy_app; [exact Hx|exact IH].
Qed.

Lemma utf8_char_first (c : ascii) :
  Ascii.eqb "?" c = false ->
  match utf8_char c with
  | y :: _ => negb (Byte.eqb "?" y)
  | [] => false
  end = true.
Proof.
  destruct c as [[] [] [] [] [] [] [] []]; intros H;
    first [reflexivity | discriminate H].
Qed.

(** [<tag] and [</tag] are tidy. *)
Lemma tidy_start_tag (s : string) :
  tag_ok s = true -> tidy (utf8_encode ("<" ++ s)) = true.
Proof.
  unfold tag_ok. intros H. apply andb_true_iff in H as [Hs Hc].
  destruct s as [|c s]; [discriminate|].
  apply negb_true_iff in Hc.
  change (utf8_encode ("<" ++ String c s))
    with ("<"%byte :: utf8_char c ++ utf8_encode s)%list.
  cbn [tidy]. change (Byte.eqb "<" "<") with true. cbv iota.
  apply andb_true_iff. split.
  - pose proof (utf8_char_first c Hc) as F.
    destruct (utf8_char c); [discriminate|exact F].
  - now apply (tidy_text (String c s)).
Qed.

Lemma tidy_end_tag (s : string) :
  no_lt s = true -> tidy (utf8_encode ("</" ++ s ++ ">")) = true.
Proof.
  intros H.
  change (utf8_encode ("</" ++ s ++ ">"))
    with ("<"%byte :: "/"%byte :: utf8_encode (s ++ ">"))%list.
  cbn [tidy]. change (Byte.eqb "<" "<") with true.
  change (Byte.eqb "<" "/") with false. change (Byte.eqb "?" "/") with false.
  cbv iota. simpl negb. simpl andb.
  apply tidy_text. now rewrite no_lt_app, H.
Qed.

Lemma xmlns_decl_no_lt (item : string * string) :
  no_lt (snd item) = true -> no_lt (ET.xmlns_decl item) = true.
Proof.
  destruct item as [uri prefix]. cbn [snd]. intros H.
  unfold ET.xmlns_decl, ET.quoted.
  destruct prefix as [|c p];
    rewrite !no_lt_app, ?H, escape_attrib_no_lt; reflexivity.
Qed.

Lemma attr_text_no_lt (qn : string -> string) (item : string * string) :
  no_lt (qn (fst item)) = true -> no_lt (ET.attr_text qn item) = true.
Proof.
  destruct item as [k v]. cbn [fst]. intros H.
  unfold ET.attr_text, ET.quoted.
  rewrite !no_lt_app, H, escape_attrib_no_lt. reflexivity.
Qed.

(** Text and attribute values are escaped, so in the serialisation of a
    well-named tree every [<] opens or closes a tag. *)
Lemma serialize_tidy (qn : string -> string) (e : ET.Element) :
  forall namespaces,
    well_named qn e = true ->
    forallb (fun item => no_lt (snd item)) namespaces = true ->
    tidy (utf8_encode (ET._serialize_xml qn namespaces e)) = true.
Proof.
  induction e as [t a x cs IH] using Element_induction.
  intros namespaces Hwn Hns.
  cbn [well_named] in Hwn.
  apply andb_true_iff in Hwn as [Hwn Hcs].
  apply andb_true_iff in Hwn as [Ht Ha].
  assert (Htag : no_lt (qn t) = true).
  { unfold tag_ok in Ht. now apply andb_true_iff in Ht as [Ht _]. }
  cbn [ET._serialize_xml].
  replace ("<" ++ qn t
           ++ String.concat "" (map ET.xmlns_decl (sorted snd namespaces))
           ++ String.concat "" (map (ET.attr_text qn) a)
           ++ (if ET.truthy x || negb (Nat.eqb (List.length cs) 0)
               then ">" ++ match x with
                           | Some s => if ET.truthy x then ET._escape_cdata s else ""
                           | None => ""
                           end
                    ++ String.concat "" (map (ET._serialize_xml qn []) cs)
                    ++ "</" ++ qn t ++ ">"
               else " />"))
    with (("<" ++ qn t)
          ++ String.concat "" (map ET.xmlns_decl (sorted snd namespaces))
          ++ String.concat "" (map (ET.attr_text qn) a)
          ++ (if ET.truthy x || negb (Nat.eqb (List.length cs) 0)
              then (">" ++ match x with
                           | Some s => if ET.truthy x then ET._escape_cdata s else ""
                           | None => ""
                           end)
                   ++ String.concat "" (map (ET._serialize_xml qn []) cs)
                   ++ ("</" ++ qn t ++ ">")
              else " />"))
    by reflexivity.
  rewrite !utf8_encode_app.
  apply tidy_app; [now apply tidy_start_tag|].
  apply tidy_app.
  { apply tidy_concat, Forall_forall. intros item Hin.
    apply tidy_text, xmlns_decl_no_lt.
    apply (proj1 (sorted_In snd namespaces item)) in Hin.
    rewrite forallb_forall in Hns. now apply Hns. }
  apply tidy_app.
  { apply tidy_concat, Forall_forall. intros item Hin.
    apply tidy_text, attr_text_no_lt.
    rewrite forallb_forall in Ha. now apply Ha. }
  destruct (ET.truthy x || negb (Nat.eqb (List.length cs) 0));
    [|reflexivity].
  rewrite !utf8_encode_app.
  apply tidy_app.
  { rewrite <- utf8_encode_app. apply tidy_text. rewrite no_lt_app.
    destruct x as [s|]; [|reflexivity].
    destruct (ET.truthy (Some s)); [apply escape_cdata_no_lt|reflexivity]. }
  apply tidy_app;
    [|rewrite <- !utf8_encode_app; now apply tidy_end_tag].
  apply tidy_concat.
  rewrite forallb_forall in Hcs. rewrite Forall_forall in IH |- *.
  intros c Hc. apply IH; [exact Hc|now apply Hcs|reflexivity].
Qed.

(* ===================================================================== *)
(** ** The bytes of the manifest *)
(* ===================================================================== *)

Lemma well_named_files (map' : list (string * string)) (fs : list string) :
  forallb (well_named (ET.qname_text map' adlcp_only)) (map file_element fs)
  = true.
Proof. induction fs as [|f fs IH]; [reflexivity|exact IH]. Qed.

Lemma well_named_manifest (map' : list (string * string))
    (title identifier launch : string) (fs : list string) :
  well_named (ET.qname_text map' adlcp_only)
    (manifest_shape title identifier launch (map file_element fs)) = true.
Proof.
  cbn [manifest_shape well_named forallb].
  rewrite well_named_files. reflexivity.
Qed.

(** What [generate_manifest] returns: it never raises, and the bytes are the
    declaration followed by the encoded serialisation of the tree. *)
Lemma generate_manifest_bytes (map : list (string * string))
    (title identifier launch : string) (fl : list string) :
  exists map',
    register_namespaces map = Some map'
    /\ ET.tostring map' (manifest_tree title identifier launch fl)
       = Some (utf8_encode
                 (ET._serialize_xml (ET.qname_text map' adlcp_only) adlcp_only
                    (manifest_tree title identifier launch fl)))
    /\ generate_manifest map title identifier launch fl
       = Some (xml_declaration
               ++ utf8_encode
                    (ET._serialize_xml (ET.qname_text map' adlcp_only)
                       adlcp_only
                       (manifest_tree title identifier launch fl)))%list.
Proof.
  destruct (register_namespaces_spec map) as (map' & Hreg & _ & Hadl & _).
  exists map'. split; [exact Hreg|].
  assert (Hto : ET.tostring map' (manifest_tree title identifier launch fl)
                = Some (utf8_encode
                          (ET._serialize_xml (ET.qname_text map' adlcp_only)
                             adlcp_only
                             (manifest_tree title identifier launch fl)))).
  { unfold ET.tostring. rewrite manifest_tree_shape.
    now rewrite (namespaces_manifest map' _ _ _ _ Hadl). }
  split; [exact Hto|].
  unfold generate_manifest. now rewrite Hreg, Hto.
Qed.

Lemma count_after_declaration (l : bytes) :
  count_sub (b "<?") (xml_declaration ++ l)%list = 1 + count_sub (b "<?") l.
Proof. reflexivity. Qed.

Lemma declaration_is_ascii :
  xml_declaration = utf8_encode (string_of_list_byte xml_declaration).
Proof. reflexivity. Qed.

(* ===================================================================== *)
(** ** The structure of the manifest *)
(* ===================================================================== *)

Lemma file_hrefs_shape (title identifier launch : string) (fs : list string) :
  file_hrefs (manifest_shape title identifier launch (map file_element fs))
  = map (PyStr.replace "\" "/") fs.
Proof.
  unfold file_hrefs, resource_of. cbn.
  induction fs as [|f fs IH]; [reflexivity|].
  cbn. now rewrite IH.
Qed.

Lemma file_hrefs_manifest (title identifier launch : string) (fl : list string) :
  file_hrefs (manifest_tree title identifier launch fl)
  = map (PyStr.replace "\" "/") (sorted (fun f => f) fl).
Proof. rewrite manifest_tree_shape. apply file_hrefs_shape. Qed.

Lemma resource_href (title identifier launch : string) (fl : list string) :
  option_map (fun r => ET.get r "href")
    (resource_of (manifest_tree title identifier launch fl))
  = Some (Some launch).
Proof. rewrite manifest_tree_shape. reflexivity. Qed.

(** C1.  The tree [generate_manifest] builds has the shape the claim lists
    (metadata, one organization ORG-1 with item ITEM-1, one resource RES-1
    of type webcontent with the ADL attribute scormtype and the launch file
    as href), but its root tag is the bare name [manifest], in no namespace:
    the namespace [http://www.imsglobal.org/xsd/imscp_v1p1] is registered
    and never used.  The serialiser therefore declares the prefix [adlcp]
    only, neither the default namespace nor [xsi], as the bytes for the
    demo course show. *)
Theorem C1_manifest_root_in_no_namespace (reg : list (string * string))
    (title identifier launch : string) (fl : list string) :
  manifest_tree title identifier launch fl
  = manifest_shape title identifier launch
      (map file_element (sorted (fun f => f) fl))
  /\ ET.tag (manifest_tree title identifier launch fl) = "manifest"
  /\ ET.namespace_of (ET.tag (manifest_tree title identifier launch fl)) = None
  /\ (exists reg',
        register_namespaces reg = Some reg'
        /\ ET.lookup NS_default reg' = Some ""
        /\ ET.lookup NS_xsi reg' = Some "xsi"
        /\ ET._namespaces reg' (manifest_tree title identifier launch fl)
           = Some [(NS_adlcp, "adlcp")])
  /\ generate_manifest ET.default_namespace_map "Demo Course"
       "com.example.scorm.0a1b2c3d" "index.html" ["index.html"]
     = Some (xml_declaration ++ b demo_manifest_text)%list.
Proof.
  split; [apply manifest_tree_shape|].
  split; [now rewrite manifest_tree_shape|].
  split; [now rewrite manifest_tree_shape|].
  split; [|vm_compute; reflexivity].
  destruct (register_namespaces_spec reg) as (reg' & Hreg & Hd & Hadl & Hx).
  exists reg'. rewrite manifest_tree_shape.
  now rewrite (namespaces_manifest reg' _ _ _ _ Hadl).
Qed.


(* ===================================================================== *)
(** ** The file list *)
(* ===================================================================== *)

Lemma replace_backslash_clean (s : string) :
  PyStr.contains_char "\" (PyStr.replace "\" "/" s) = false.
Proof.
  change ("\"%string) with (PyStr.chr "\"%char).
  rewrite replace_chr. now apply subst_char_removes.
Qed.

Lemma replace_backslash_id (s : string) :
  PyStr.contains_char "\" s = false -> PyStr.replace "\" "/" s = s.
Proof.
  intros H. change ("\"%string) with (PyStr.chr "\"%char).
  rewrite replace_chr. now apply subst_char_absent.
Qed.

Lemma file_list_clean (t : tree) :
  Forall (fun f => PyStr.contains_char "\" f = false) (file_list t).
Proof.
  unfold file_list. apply Forall_forall. intros f Hin.
  apply in_map_iff in Hin as (p & <- & _). apply replace_backslash_clean.
Qed.

(** On the file list of a staged tree the second replacement in
    [generate_manifest] changes nothing: the hrefs are the sorted list. *)
Lemma file_hrefs_file_list (title identifier launch : string) (t : tree) :
  file_hrefs (manifest_tree title identifier launch (file_list t))
  = sorted (fun f => f) (file_list t).
Proof.
  rewrite file_hrefs_manifest.
  rewrite <- (map_id (sorted (fun f => f) (file_list t))) at 2.
  apply map_ext_in. intros f Hin.
  apply replace_backslash_id.
  apply (proj1 (sorted_In (fun f => f) (file_list t) f)) in Hin.
  pose proof (file_list_clean t) as Hclean.
  rewrite Forall_forall in Hclean. now apply Hclean.
Qed.

(* ===================================================================== *)
(** ** The name of the package *)
(* ===================================================================== *)

Lemma replace_space_underscore (s : string) :
  PyStr.replace " " "_" s = underscore_spaces s.
Proof.
  change (" "%string) with (PyStr.chr " "%char). rewrite replace_chr.
  unfold underscore_spaces.
  induction s as [|c s IH]; simpl; [reflexivity|].
  rewrite IH. now destruct (Ascii.eqb c " ").
Qed.

Lemma lstrip_spec (s : string) :
  exists l,
    s = l ++ PyStr.lstrip s
    /\ all_space l = true
    /\ starts_with_space (PyStr.lstrip s) = false.
Proof.
  induction s as [|c s (l & Hs & Hl & Hfirst)]; simpl.
  - now exists "".
  - destruct (PyStr.isspace c) eqn:E.
    + exists (String c l). simpl. rewrite E, Hl, <- Hs. repeat split; auto.
    + exists "". simpl. rewrite E. repeat split; auto.
Qed.

Lemma rstrip_spec (s : string) :
  exists r,
    s = PyStr.rstrip s ++ r
    /\ all_space r = true
    /\ ends_with_space (PyStr.rstrip s) = false.
Proof.
  induction s as [|c s (r & Hs & Hr & Hlast)]; simpl.
  - now exists "".
  - destruct (PyStr.rstrip s) as [|d u] eqn:E.
    + simpl in Hs. subst r.
      destruct (PyStr.isspace c) eqn:Ec.
      * exists (String c s). simpl. rewrite Ec, Hr. repeat split; auto.
      * exists s. simpl. rewrite Ec. repeat split; auto.
    + exists r. rewrite Hs at 1. repeat split; auto.
Qed.

Lemma rstrip_first (s : string) :
  starts_with_space s = false -> starts_with_space (PyStr.rstrip s) = false.
Proof.
  destruct s as [|c s]; simpl; [reflexivity|]. intros H.
  destruct (PyStr.rstrip s); simpl; [now rewrite H|exact H].
Qed.

Lemma map_chars_get (f : ascii -> ascii) (s : string) (i : nat) :
  String.get i (map_chars f s) = option_map f (String.get i s).
Proof.
  revert i. induction s as [|c s IH]; intros [|i]; simpl; auto.
Qed.

(** C9, amended.  The archive is named [<s>_SCORM.zip] where [s] is the
    title without its leading and trailing white space and with every space
    character turned into an underscore, position by position; every other
    character of the stripped title, other white space included, is kept.
    The title [Demo Course] gives [Demo_Course_SCORM.zip]. *)
Theorem C9_pkg_name_strips_then_replaces_spaces (course_title : string) :
  pkg_name course_title
  = underscore_spaces (PyStr.strip course_title) ++ "_SCORM.zip"
  /\ (exists l r,
        course_title = l ++ PyStr.strip course_title ++ r
        /\ all_space l = true /\ all_space r = true)
  /\ starts_with_space (PyStr.strip course_title) = false
  /\ ends_with_space (PyStr.strip course_title) = false
  /\ (forall i,
        String.get i (underscore_spaces (PyStr.strip course_title))
        = option_map (fun c => if Ascii.eqb c " " then "_"%char else c)
            (String.get i (PyStr.strip course_title)))
  /\ pkg_name "Demo Course" = "Demo_Course_SCORM.zip".
Proof.
  unfold pkg_name. rewrite replace_space_underscore.
  split; [reflexivity|].
  destruct (lstrip_spec course_title) as (l & Hl & Hls & Hfirst).
  destruct (rstrip_spec (PyStr.lstrip course_title)) as (r & Hr & Hrs & Hlast).
  split; [|split; [|split; [|split]]].
  - exists l, r. unfold PyStr.strip. now rewrite <- Hr, <- Hl.
  - now apply rstrip_first.
  - exact Hlast.
  - intros i. apply map_chars_get.
  - reflexivity.
Qed.

(** C9 as worded fails in two ways: leading white space is dropped rather
    than replaced, and a tab inside the title is kept. *)
Lemma C9_counterexample :
  pkg_name " Demo" = "Demo_SCORM.zip"
  /\ pkg_name_as_specified " Demo" = "_Demo_SCORM.zip"
  /\ pkg_name ("a" ++ PyStr.chr PyStr.tab ++ "b")
     = "a" ++ PyStr.chr PyStr.tab ++ "b_SCORM.zip"
  /\ pkg_name_as_specified ("a" ++ PyStr.chr PyStr.tab ++ "b")
     = "a_b_SCORM.zip".
Proof. repeat split; reflexivity. Qed.


(* ===================================================================== *)
(** ** Staging *)
(* ===================================================================== *)

Lemma package_by_launch (course_title uuid_hex : string) (t : tree) :
  package course_title uuid_hex t
  = match chosen_launch t with
    | None => Error no_content_msg
    | Some launch =>
        match generate_manifest ET.default_namespace_map course_title
                (scorm_id uuid_hex) launch (file_list t) with
        | None => Uncaught ValueError
        | Some manifest_bytes =>
            match staged_entries t with
            | None => Uncaught IndexError
            | Some written =>
                Download (pkg_name course_title)
                  (written ++ [("imsmanifest.xml", manifest_bytes)])%list
            end
        end
    end.
Proof. unfold package, chosen_launch. now destruct (html_files t). Qed.

(** Once a launch file is chosen the manifest is built, and the script ends
    with a download unless writing a staged file into the archive raises. *)
Lemma package_download (course_title uuid_hex : string) (t : tree)
    (launch : string) :
  chosen_launch t = Some launch ->
  exists manifest_bytes,
    generate_manifest ET.default_namespace_map course_title
      (scorm_id uuid_hex) launch (file_list t) = Some manifest_bytes
    /\ package course_title uuid_hex t
       = match staged_entries t with
         | None => Uncaught IndexError
         | Some written =>
             Download (pkg_name course_title)
               (written ++ [("imsmanifest.xml", manifest_bytes)])%list
         end.
Proof.
  intros Hl. rewrite package_by_launch, Hl.
  destruct (generate_manifest_bytes ET.default_namespace_map course_title
              (scorm_id uuid_hex) launch (file_list t))
    as (reg' & _ & _ & Hgen).
  rewrite Hgen. eexists. split; reflexivity.
Qed.




(** C6.  The handler of the script catches [zipfile.BadZipFile] and
    nothing else.  When the uploaded name ends in [.zip] and the archive
    library raises [BadZipFile], the run ends with the message for an
    invalid archive and no download.  When the library raises another
    exception, as it raises [NotImplementedError] for a member with an
    unsupported compression method, the run ends with that exception,
    uncaught: no message for an invalid archive is shown. *)
Theorem C6_unsupported_compression_is_not_reported
    (extractall : bytes -> extraction) (course_title uuid_hex : string)
    (uploaded : UploadedFile) (e : exception) :
  PyStr.endswith (PyStr.lower (upload_name uploaded)) ".zip" = true ->
  extractall (getbuffer uploaded) = Raises e ->
  (e = BadZipFile ->
   run extractall course_title uuid_hex (Some uploaded)
   = Error invalid_archive_msg)
  /\ (e <> BadZipFile ->
      run extractall course_title uuid_hex (Some uploaded) = Uncaught e
      /\ run extractall course_title uuid_hex (Some uploaded)
         <> Error invalid_archive_msg).
Proof.
  intros Hzip Hraises. unfold run, stage. rewrite Hzip, Hraises.
  split.
  - now intros ->.
  - intros Hne. destruct e; try congruence; split; congruence.
Qed.

Lemma C6_witness :
  PyStr.endswith (PyStr.lower (upload_name unsupported_zip)) ".zip" = true
  /\ first_member_method (getbuffer unsupported_zip) = Some 99%N
  /\ extractall_of_examples (getbuffer unsupported_zip)
     = Raises NotImplementedError
  /\ run extractall_of_examples "Demo Course" demo_uuid_hex
       (Some unsupported_zip)
     = Uncaught NotImplementedError.
Proof.
  split; [reflexivity|]. split; [reflexivity|]. split; [reflexivity|].
  apply (C6_unsupported_compression_is_not_reported extractall_of_examples
           "Demo Course" demo_uuid_hex unsupported_zip NotImplementedError
           eq_refl eq_refl).
  discriminate.
Defined.

(* ===================================================================== *)
(** ** The launch file *)
(* ===================================================================== *)

Lemma exists_at_root_In (child : string) (t : tree) :
  exists_at_root child t = true <-> exists e, In e t /\ parts e = [child].
Proof.
  unfold exists_at_root. rewrite existsb_exists.
  split; intros (e & Hin & He); exists e; split; auto.
  - now destruct (list_eq_dec string_dec (parts e) [child]).
  - now destruct (list_eq_dec string_dec (parts e) [child]).
Qed.

(** The first entry of a walk that a pattern matches. *)
Lemma rglob_first (pattern : string) (pre : list entry) (e : entry)
    (post : list entry) :
  (forall p, In p pre -> PyStr.fnmatch pattern (name p) = false) ->
  PyStr.fnmatch pattern (name e) = true ->
  rglob pattern (pre ++ e :: post)%list = e :: rglob pattern post.
Proof.
  intros Hpre He. unfold rglob. rewrite filter_app. simpl. rewrite He.
  replace (filter _ pre) with (@nil entry); [reflexivity|].
  symmetry. induction pre as [|p pre IH]; [reflexivity|]. simpl.
  rewrite (Hpre p) by now left.
  apply IH. intros q Hq. apply Hpre. now right.
Qed.

Lemma rglob_none (pattern : string) (t : tree) :
  (forall p, In p t -> PyStr.fnmatch pattern (name p) = false) ->
  rglob pattern t = [].
Proof.
  intros H. unfold rglob. induction t as [|p t IH]; [reflexivity|]. simpl.
  rewrite (H p) by now left.
  apply IH. intros q Hq. apply H. now right.
Qed.

(** C4, amended.  (1) If a file [index.html] stands at the root of the
    staged tree, it is the launch file.  If the root holds no entry named
    [index.html], neither a file nor a directory, then (2) if some entry
    name ends in [.html], the launch file is the first such entry of the
    walk, even when a [.htm] document comes earlier in the walk, and (3) if
    no entry name ends in [.html], it is the first entry of the walk whose
    name ends in [.htm]; (2) and (3) are stated for the case that this
    entry is a regular file.  No ordering of path strings is applied.
    (4) If [docs/index.html] is the only entry with an HTML/HTM name, the
    launch file is [docs/index.html].  A root that holds a directory named
    [index.html] is left out of (2) and (3): [root_index.exists()] is true
    for a directory as well. *)
Theorem C4_launch_file_selection (t : tree) :
  (forall d, In (file ["index.html"] d) t ->
             chosen_launch t = Some "index.html")
  /\ (forall pre e post,
        exists_at_root "index.html" t = false ->
        t = (pre ++ e :: post)%list ->
        is_file e = true ->
        PyStr.fnmatch "*.html" (name e) = true ->
        (forall p, In p pre -> PyStr.fnmatch "*.html" (name p) = false) ->
        chosen_launch t = Some (PyStr.replace "\" "/" (str_rel e)))
  /\ (forall pre e post,
        exists_at_root "index.html" t = false ->
        (forall p, In p t -> PyStr.fnmatch "*.html" (name p) = false) ->
        t = (pre ++ e :: post)%list ->
        is_file e = true ->
        PyStr.fnmatch "*.htm" (name e) = true ->
        (forall p, In p pre -> PyStr.fnmatch "*.htm" (name p) = false) ->
        chosen_launch t = Some (PyStr.replace "\" "/" (str_rel e)))
  /\ (forall d,
        In (file ["docs"; "index.html"] d) t ->
        (forall p, In p t -> html_name p = true ->
                   parts p = ["docs"; "index.html"]) ->
        chosen_launch t = Some "docs/index.html").
Proof.
  split; [|split; [|split]].
  - intros d Hin.
    assert (Hroot : exists_at_root "index.html" t = true)
      by (apply exists_at_root_In; now exists (file ["index.html"] d)).
    unfold chosen_launch, launch_file. rewrite Hroot.
    destruct (html_files t) as [|first rest] eqn:E; [|reflexivity].
    exfalso. unfold html_files in E. apply app_eq_nil in E as [E _].
    assert (Hm : In (file ["index.html"] d) (rglob "*.html" t))
      by (apply filter_In; split; [exact Hin|reflexivity]).
    now rewrite E in Hm.
  - intros pre e post Hroot -> _ He Hpre.
    unfold chosen_launch, launch_file, html_files. rewrite Hroot.
    now rewrite (rglob_first "*.html" pre e post Hpre He).
  - intros pre e post Hroot Hnone -> _ He Hpre.
    unfold chosen_launch, launch_file, html_files. rewrite Hroot.
    rewrite (rglob_none "*.html" _ Hnone).
    now rewrite (rglob_first "*.htm" pre e post Hpre He).
  - intros d Hin Honly.
    assert (Hroot : exists_at_root "index.html" t = false).
    { destruct (exists_at_root "index.html" t) eqn:E; [|reflexivity].
      apply exists_at_root_In in E as (e & He & Hparts).
      assert (Hn : html_name e = true)
        by (unfold html_name, name; now rewrite Hparts).
      specialize (Honly e He Hn). congruence. }
    unfold chosen_launch, launch_file. rewrite Hroot.
    destruct (html_files t) as [|first rest] eqn:E.
    + exfalso. unfold html_files in E. apply app_eq_nil in E as [E _].
      assert (Hm : In (file ["docs"; "index.html"] d) (rglob "*.html" t))
        by (apply filter_In; split; [exact Hin|reflexivity]).
      now rewrite E in Hm.
    + assert (Hfirst : In first (html_files t)) by (rewrite E; now left).
      unfold html_files in Hfirst. apply in_app_or in Hfirst.
      assert (Hparts : parts first = ["docs"; "index.html"]).
      { destruct Hfirst as [H|H]; apply filter_In in H as [Ht Hm];
          apply (Honly first Ht); unfold html_name; rewrite Hm;
          [reflexivity|apply orb_true_r]. }
      unfold str_rel. now rewrite Hparts.
Qed.

(** The four cases of C4 on concrete trees. *)
Example C4_cases :
  chosen_launch tree_with_manifest = Some "index.html"
  /\ chosen_launch tree_htm_before_html = Some "b.html"
  /\ chosen_launch [dir ["x"]; file ["x"; "b.htm"] []; file ["x"; "a.htm"] []]
     = Some "x/b.htm"
  /\ chosen_launch tree_docs_only = Some "docs/index.html".
Proof. repeat split; reflexivity. Qed.

(** [root_index.exists()] does not ask for a regular file: with a
    directory named [index.html] at the root, the launch file is
    [index.html], not the first document of the walk. *)
Example launch_with_directory_named_index :
  exists_at_root "index.html" [file ["a.html"] []; dir ["index.html"]] = true
  /\ chosen_launch [file ["a.html"] []; dir ["index.html"]]
     = Some "index.html".
Proof. split; reflexivity. Qed.

(** C4 as worded fails on a tree in which [a.htm] is walked before
    [b.html] and which holds [docs/index.html] but no [index.html] at the
    root: the first HTML/HTM document of the walk is [a.htm], the claim's
    last sentence asks for [docs/index.html], and the script picks
    [b.html]. *)
Lemma C4_counterexample :
  exists_at_root "index.html" tree_htm_before_html = false
  /\ In (file ["docs"; "index.html"] (b "<html>docs</html>"))
        tree_htm_before_html
  /\ launch_as_specified tree_htm_before_html = Some "a.htm"
  /\ chosen_launch tree_htm_before_html = Some "b.html".
Proof.
  split; [reflexivity|]. split; [simpl; tauto|]. split; reflexivity.
Qed.

(* ===================================================================== *)
(** ** Directories with an HTML name *)
(* ===================================================================== *)

(** C5.  A staged tree without any HTML/HTM document, but with a directory
    whose name ends in [.html]: [rglob] yields the directory, [html_files]
    is not empty, and the run ends with a download whose launch file is the
    directory, instead of the error for missing content. *)
Theorem C5_directory_passes_for_content :
  existsb is_html_document tree_directory_named_html = false
  /\ html_files tree_directory_named_html = [dir ["notes.html"]]
  /\ chosen_launch tree_directory_named_html = Some "notes.html"
  /\ exists manifest_bytes,
       run (fun _ => Extracted tree_directory_named_html)
         "Demo Course" demo_uuid_hex (Some demo_zip)
       = Download "Demo_Course_SCORM.zip"
           [("notes.html/readme.txt", b "plain text");
            ("imsmanifest.xml", manifest_bytes)].
Proof.
  repeat split; try reflexivity.
  eexists. vm_compute. reflexivity.
Qed.

(** C8.  A staged tree that holds nothing but an empty directory named
    [lessons.html]: the script reaches manifest generation with the launch
    file [lessons.html] and an empty file list, and ends with a download. *)
Theorem C8_manifest_spec_without_launch_file :
  chosen_launch tree_empty_directory_named_html = Some "lessons.html"
  /\ file_list tree_empty_directory_named_html = []
  /\ exists manifest_bytes,
       generate_manifest ET.default_namespace_map "Demo Course"
         (scorm_id demo_uuid_hex) "lessons.html" [] = Some manifest_bytes
       /\ run (fun _ => Extracted tree_empty_directory_named_html)
            "Demo Course" demo_uuid_hex (Some demo_zip)
          = Download "Demo_Course_SCORM.zip"
              [("imsmanifest.xml", manifest_bytes)].
Proof.
  repeat split; try reflexivity.
  eexists. split; vm_compute; reflexivity.
Qed.


(* ===================================================================== *)
(** ** Writing the staged files into the archive *)
(* ===================================================================== *)

(** The pattern [*] matches every name: [rglob('*')] is the whole walk. *)
Lemma fnmatch_star (n : string) : PyStr.fnmatch "*" n = true.
Proof.
  induction n as [|c n IH]; [reflexivity|].
  cbn in *. exact IH.
Qed.

Lemma rglob_star (t : tree) : rglob "*" t = t.
Proof.
  unfold rglob. induction t as [|e t IH]; [reflexivity|].
  cbn [filter]. now rewrite fnmatch_star, IH.
Qed.

(** The loop succeeds exactly when every call of [zf.write] does, and then
    holds the written entries in the order of the files. *)
Lemma write_all_Some (files : list entry) (written : list (string * bytes)) :
  write_all files = Some written
  <-> Forall2 (fun p entry => zf_write p = Some entry) files written.
Proof.
  split.
  - revert written. induction files as [|p files IH]; intros written; simpl.
    + intros [= <-]. constructor.
    + destruct (zf_write p) as [w|] eqn:Ew; [|discriminate].
      destruct (write_all files) as [rest|]; [|discriminate].
      intros [= <-]. constructor; [exact Ew|now apply IH].
  - induction 1 as [|p w files rest Hp _ IH]; simpl; [reflexivity|].
    now rewrite Hp, IH.
Qed.

Lemma write_all_None (files : list entry) :
  write_all files = None
  <-> exists p, In p files /\ zf_write p = None.
Proof.
  split.
  - induction files as [|p files IH]; simpl; [discriminate|].
    destruct (zf_write p) as [w|] eqn:Ew; [|intros _; exists p; auto].
    destruct (write_all files) as [rest|]; [discriminate|].
    intros _. destruct (IH eq_refl) as (q & Hq & Hn). exists q. auto.
  - intros (q & Hq & Hn). induction files as [|p files IH]; [destruct Hq|].
    simpl. destruct Hq as [->|Hq]; [now rewrite Hn|].
    destruct (zf_write p); [|reflexivity]. now rewrite (IH Hq).
Qed.

Lemma zf_write_None (p : entry) :
  zf_write p = None
  <-> ZipFile.from_file (PyStr.replace "\" "/" (str_rel p)) = None.
Proof.
  unfold zf_write.
  destruct (ZipFile.from_file (PyStr.replace "\" "/" (str_rel p)));
    split; congruence.
Qed.

(** An entry of the files is written where it stands. *)
Lemma written_entry_of_file (files : list entry)
    (written : list (string * bytes)) (p : entry) (entry : string * bytes) :
  write_all files = Some written ->
  In p files -> zf_write p = Some entry ->
  exists before between, written = (before ++ entry :: between)%list.
Proof.
  intros Hw Hin Hp. apply write_all_Some in Hw.
  destruct (in_split _ _ Hin) as (l1 & l2 & ->).
  apply Forall2_app_inv_l in Hw as (w1 & w2 & _ & Hw2 & ->).
  inversion Hw2 as [|? y ? w2' Hy _]; subst.
  exists w1, w2'. congruence.
Qed.


(** *** Plain names need no normalisation *)

Lemma plain_component_spec (c : string) :
  plain_component c = true ->
  c <> "" /\ c <> "." /\ c <> ".."
  /\ PyStr.contains_char "/" c = false
  /\ PyStr.contains_char "\" c = false
  /\ PyStr.contains_char "000" c = false.
Proof.
  unfold plain_component. rewrite !andb_true_iff, !negb_true_iff.
  intros [[[[[H1 H2] H3] H4] H5] H6].
  rewrite String.eqb_neq in H1, H2, H3. repeat split; assumption.
Qed.

Lemma join_cons (sep p : string) (q : string) (ps : list string) :
  PyStr.join sep (p :: q :: ps) = p ++ sep ++ PyStr.join sep (q :: ps).
Proof. reflexivity. Qed.

Lemma join_contains (c : ascii) (ps : list string) :
  PyStr.contains_char c "/" = false ->
  Forall (fun p => PyStr.contains_char c p = false) ps ->
  PyStr.contains_char c (PyStr.join "/" ps) = false.
Proof.
  intros Hsep. induction 1 as [|p ps Hp Hps IH]; [reflexivity|].
  destruct ps as [|q ps]; [exact Hp|].
  rewrite join_cons, !contains_char_app, Hp, Hsep. exact IH.
Qed.

Lemma split_without_sep (c : ascii) (s : string) :
  PyStr.contains_char c s = false -> PosixPath.split c s = [s].
Proof.
  induction s as [|d s IH]; [reflexivity|].
  cbn [PyStr.contains_char PosixPath.split]. intros H.
  apply orb_false_elim in H as [Hd Hs].
  rewrite Ascii.eqb_sym, Hd, (IH Hs). reflexivity.
Qed.

Lemma split_app (c : ascii) (p s : string) :
  PyStr.contains_char c p = false ->
  PosixPath.split c (p ++ String c s) = p :: PosixPath.split c s.
Proof.
  induction p as [|d p IH]; intros H.
  - cbn [append PosixPath.split]. now rewrite Ascii.eqb_refl.
  - cbn [PyStr.contains_char] in H. apply orb_false_elim in H as [Hd Hp].
    cbn [append PosixPath.split]. rewrite Ascii.eqb_sym, Hd, (IH Hp).
    reflexivity.
Qed.

Lemma split_join (ps : list string) :
  ps <> [] ->
  Forall (fun p => PyStr.contains_char "/" p = false) ps ->
  PosixPath.split "/" (PyStr.join "/" ps) = ps.
Proof.
  intros Hne H. induction H as [|p ps Hp Hps IH]; [congruence|].
  destruct ps as [|q ps]; [now apply split_without_sep|].
  rewrite join_cons. change ("/" ++ PyStr.join "/" (q :: ps))
    with (String "/" (PyStr.join "/" (q :: ps))).
  rewrite (split_app "/" p _ Hp), IH; [reflexivity|discriminate].
Qed.

Lemma norm_steps_plain (initial : nat) (ps acc : list string) :
  Forall (fun p => plain_component p = true) ps ->
  fold_left (PosixPath.norm_step initial) ps acc = (rev ps ++ acc)%list.
Proof.
  intros H. revert acc. induction H as [|p ps Hp _ IH]; intros acc;
    [reflexivity|].
  cbn [fold_left rev]. rewrite IH, <- app_assoc. cbn [app].
  do 2 f_equal. unfold PosixPath.norm_step.
  destruct (plain_component_spec p Hp) as (H1 & H2 & H3 & _).
  apply String.eqb_neq in H1, H2, H3. now rewrite H1, H2, H3.
Qed.

Lemma until_null_clean (s : string) :
  PyStr.contains_char "000" s = false -> ZipFile.until_null s = s.
Proof.
  induction s as [|c s IH]; [reflexivity|].
  cbn [PyStr.contains_char ZipFile.until_null]. intros H.
  apply orb_false_elim in H as [Hc Hs].
  rewrite Ascii.eqb_sym, Hc, (IH Hs). reflexivity.
Qed.

Lemma plain_parts_spec (ps : list string) :
  plain_parts ps = true ->
  ps <> [] /\ Forall (fun p => plain_component p = true) ps.
Proof.
  destruct ps as [|p ps]; [discriminate|]. intros H. split; [discriminate|].
  apply Forall_forall. unfold plain_parts in H.
  rewrite forallb_forall in H. exact H.
Qed.

(** A path of plain components is stored in the archive as it is. *)
Lemma from_file_plain (ps : list string) :
  plain_parts ps = true ->
  PyStr.replace "\" "/" (PyStr.join "/" ps) = PyStr.join "/" ps
  /\ ZipFile.from_file (PyStr.join "/" ps) = Some (PyStr.join "/" ps).
Proof.
  intros Hplain. destruct (plain_parts_spec ps Hplain) as [Hne Hall].
  assert (Hslash : Forall (fun p => PyStr.contains_char "/" p = false) ps).
  { eapply Forall_impl; [|exact Hall]. intros p Hp.
    now destruct (plain_component_spec p Hp) as (_ & _ & _ & H & _). }
  assert (Hback : PyStr.contains_char "\" (PyStr.join "/" ps) = false).
  { apply join_contains; [reflexivity|].
    eapply Forall_impl; [|exact Hall]. intros p Hp.
    now destruct (plain_component_spec p Hp) as (_ & _ & _ & _ & H & _). }
  assert (Hnull : PyStr.contains_char "000" (PyStr.join "/" ps) = false).
  { apply join_contains; [reflexivity|].
    eapply Forall_impl; [|exact Hall]. intros p Hp.
    now destruct (plain_component_spec p Hp) as (_ & _ & _ & _ & _ & H). }
  split; [now apply replace_backslash_id|].
  destruct ps as [|p ps]; [congruence|].
  assert (Hp : plain_component p = true) by now inversion Hall.
  destruct (plain_component_spec p Hp) as (Hp1 & _ & _ & Hp4 & _).
  destruct p as [|c p]; [congruence|].
  assert (Hc : Ascii.eqb c "/" = false).
  { cbn [PyStr.contains_char] in Hp4. apply orb_false_elim in Hp4 as [H _].
    now rewrite Ascii.eqb_sym. }
  assert (Hjoin : exists rest, PyStr.join "/" (String c p :: ps) = String c rest).
  { destruct ps as [|q ps]; [now exists p|].
    rewrite join_cons. now eexists. }
  destruct Hjoin as (rest & Hjoin).
  assert (Hnorm : PosixPath.normpath (PyStr.join "/" (String c p :: ps))
                  = PyStr.join "/" (String c p :: ps)).
  { unfold PosixPath.normpath.
    rewrite (split_join _ Hne Hslash), (norm_steps_plain _ _ _ Hall).
    rewrite app_nil_r, rev_involutive.
    assert (Hinit : PosixPath.initial_slashes
                      (PyStr.join "/" (String c p :: ps)) = 0).
    { rewrite Hjoin. unfold PosixPath.initial_slashes, PyStr.startswith.
      cbn [String.prefix].
      destruct (ascii_dec "/" c) as [<-|_]; [discriminate Hc|reflexivity]. }
    rewrite Hinit. cbn [PosixPath.slashes append].
    rewrite Hjoin. reflexivity. }
  unfold ZipFile.from_file. rewrite Hnorm.
  rewrite Hjoin in *. cbn [ZipFile.strip_separators].
  destruct c as [[] [] [] [] [] [] [] []]; try discriminate Hc;
    now rewrite (until_null_clean _ Hnull).
Qed.

Lemma zf_write_plain (p : entry) :
  plain_parts (parts p) = true -> zf_write p = Some (str_rel p, data p).
Proof.
  intros H. unfold zf_write, str_rel.
  destruct (from_file_plain (parts p) H) as [-> ->]. reflexivity.
Qed.

Lemma write_all_plain (files : list entry) :
  Forall (fun p => plain_parts (parts p) = true) files ->
  write_all files = Some (map (fun p => (str_rel p, data p)) files).
Proof.
  induction 1 as [|p files Hp _ IH]; [reflexivity|].
  simpl. now rewrite (zf_write_plain p Hp), IH.
Qed.

Lemma file_list_plain (t : tree) :
  (forall e, In e t -> is_file e = true -> plain_parts (parts e) = true) ->
  file_list t = map str_rel (filter is_file t).
Proof.
  intros H. unfold file_list. rewrite rglob_star. apply map_ext_in.
  intros e He. apply filter_In in He as [He Hf]. unfold str_rel.
  now destruct (from_file_plain (parts e) (H e He Hf)) as [-> _].
Qed.

Lemma staged_entries_plain (t : tree) :
  (forall e, In e t -> is_file e = true -> plain_parts (parts e) = true) ->
  staged_entries t
  = Some (map (fun p => (str_rel p, data p)) (filter is_file t)).
Proof.
  intros H. unfold staged_entries. rewrite rglob_star.
  apply write_all_plain, Forall_forall. intros e He.
  apply filter_In in He as [He Hf]. now apply H.
Qed.


(** *** The manifest names every path of the file list *)

Lemma string_app_assoc (s1 s2 s3 : string) : (s1 ++ s2) ++ s3 = s1 ++ s2 ++ s3.
Proof. induction s1 as [|c s1 IH]; simpl; congruence. Qed.

Lemma string_app_nil_r (s : string) : s ++ "" = s.
Proof. induction s as [|c s IH]; simpl; congruence. Qed.

Lemma concat_empty_cons (x : string) (l : list string) :
  String.concat "" (x :: l) = x ++ String.concat "" l.
Proof. destruct l; simpl; [now rewrite string_app_nil_r|reflexivity]. Qed.

Lemma concat_empty_app (l1 l2 : list string) :
  String.concat "" (l1 ++ l2) = String.concat "" l1 ++ String.concat "" l2.
Proof.
  induction l1 as [|x l1 IH]; [reflexivity|].
  rewrite <- app_comm_cons, !concat_empty_cons, IH.
  now rewrite string_app_assoc.
Qed.

(** The text [p] occurs somewhere in [s]. *)
Lemma occurs_trans (p m s pre post : string) :
  s = pre ++ m ++ post ->
  (exists pre' post', m = pre' ++ p ++ post') ->
  exists pre' post', s = pre' ++ p ++ post'.
Proof.
  intros -> (pre' & post' & ->).
  exists (pre ++ pre'), (post' ++ post).
  now rewrite !string_app_assoc.
Qed.

(** The serialisation of a child stands inside that of its parent. *)
Lemma child_occurs (qn : string -> string) (namespaces : list (string * string))
    (t : string) (a : list (string * string)) (x : option string)
    (cs : list ET.Element) (c : ET.Element) :
  In c cs ->
  exists pre post,
    ET._serialize_xml qn namespaces (ET.Elem t a x cs)
    = pre ++ ET._serialize_xml qn [] c ++ post.
Proof.
  intros Hin. destruct (in_split _ _ Hin) as (l1 & l2 & ->).
  cbn [ET._serialize_xml].
  replace (negb (Nat.eqb (List.length (l1 ++ c :: l2)) 0)) with true
    by (rewrite length_app; simpl; destruct (List.length l1); reflexivity).
  rewrite orb_true_r, map_app, concat_empty_app.
  cbn [map]. rewrite concat_empty_cons.
  eexists ("<" ++ qn t
           ++ String.concat "" (map ET.xmlns_decl (sorted snd namespaces))
           ++ String.concat "" (map (ET.attr_text qn) a)
           ++ ">"
           ++ match x with
              | Some s => if ET.truthy x then ET._escape_cdata s else ""
              | None => ""
              end
           ++ String.concat "" (map (ET._serialize_xml qn []) l1)),
          (String.concat "" (map (ET._serialize_xml qn []) l2)
           ++ "</" ++ qn t ++ ">").
  rewrite !string_app_assoc. reflexivity.
Qed.

Lemma file_element_text (reg : list (string * string)) (f : string) :
  ET._serialize_xml (ET.qname_text reg adlcp_only) [] (file_element f)
  = file_tag f.
Proof. reflexivity. Qed.

Lemma manifest_text_holds_file (reg : list (string * string))
    (title identifier launch : string) (fs : list string) (f : string) :
  In f fs ->
  exists pre post,
    ET._serialize_xml (ET.qname_text reg adlcp_only) adlcp_only
      (manifest_shape title identifier launch (map file_element fs))
    = pre ++ file_tag f ++ post.
Proof.
  intros Hin. unfold manifest_shape.
  set (qn := ET.qname_text reg adlcp_only).
  match goal with
  | |- context [ET.Elem "resources" [] None [?r]] =>
      set (resource := r)
  end.
  match goal with
  | |- context [ET.Elem "manifest" ?a None [?m; ?o; ?rs]] =>
      destruct (child_occurs qn adlcp_only "manifest" a None [m; o; rs] rs)
        as (pre1 & post1 & H1); [simpl; tauto|]
  end.
  eapply occurs_trans; [exact H1|].
  destruct (child_occurs qn [] "resources" [] None [resource] resource)
    as (pre2 & post2 & H2); [simpl; tauto|].
  eapply occurs_trans; [exact H2|].
  subst resource.
  match goal with
  | |- context [ET.Elem "resource" ?a None ?cs] =>
      destruct (child_occurs qn [] "resource" a None cs (file_element f))
        as (pre3 & post3 & H3); [now apply in_map|]
  end.
  exists pre3, post3. rewrite H3. reflexivity.
Qed.

(** Every path of the file list is named in the bytes of the manifest, by
    its [file] tag. *)
Lemma manifest_bytes_hold_file (reg : list (string * string))
    (title identifier launch : string) (fl : list string) (f : string)
    (manifest_bytes : bytes) :
  generate_manifest reg title identifier launch fl = Some manifest_bytes ->
  In f fl ->
  occurs_in (utf8_encode (file_tag f)) manifest_bytes.
Proof.
  intros Hgen Hin.
  destruct (generate_manifest_bytes reg title identifier launch fl)
    as (reg' & _ & _ & Hbytes).
  assert (Heq : manifest_bytes
                = (xml_declaration
                   ++ utf8_encode
                        (ET._serialize_xml (ET.qname_text reg' adlcp_only)
                           adlcp_only
                           (manifest_tree title identifier launch fl)))%list)
    by congruence.
  rewrite Heq. clear Heq Hbytes Hgen.
  rewrite manifest_tree_shape.
  destruct (manifest_text_holds_file reg' title identifier launch
              (sorted (fun f => f) fl) f) as (pre & post & ->).
  { now apply sorted_In. }
  exists (xml_declaration ++ utf8_encode pre)%list, (utf8_encode post).
  rewrite !utf8_encode_app, <- !app_assoc. reflexivity.
Qed.



(** The bytes [generate_manifest] returns are the declaration followed by
    the encoded serialisation of the tree it built. *)
Lemma manifest_bytes_of_tree (reg : list (string * string))
    (title identifier launch : string) (fl : list string)
    (manifest_bytes : bytes) :
  generate_manifest reg title identifier launch fl = Some manifest_bytes ->
  exists reg',
    register_namespaces reg = Some reg'
    /\ manifest_bytes
       = (xml_declaration
          ++ utf8_encode
               (ET._serialize_xml (ET.qname_text reg' adlcp_only) adlcp_only
                  (manifest_tree title identifier launch fl)))%list.
Proof.
  intros Hgen.
  destruct (generate_manifest_bytes reg title identifier launch fl)
    as (reg' & Hreg & _ & Hbytes).
  exists reg'. split; [exact Hreg|]. congruence.
Qed.

(* ===================================================================== *)
(** ** The hrefs and the staged files *)
(* ===================================================================== *)





(** The [href]s of a nested tree, as staged on either platform. *)
Example hrefs_of_tree_nested :
  file_list_on "\" tree_nested = ["index.html"; "media/b.png"; "media/a.png"]
  /\ file_hrefs (manifest_tree "Demo Course" "id" "index.html"
                   (file_list_on "\" tree_nested))
     = ["index.html"; "media/a.png"; "media/b.png"]
  /\ file_hrefs (manifest_tree "Demo Course" "id" "index.html"
                   (file_list tree_nested))
     = ["index.html"; "media/a.png"; "media/b.png"].
Proof. repeat split; reflexivity. Qed.

(* ===================================================================== *)
(** ** A staged [imsmanifest.xml] *)
(* ===================================================================== *)

(** C10, amended.  If the staged tree holds a file [imsmanifest.xml] at its
    root and the run ends with a download, the archive holds the staged
    file under the name [imsmanifest.xml] and, as its last entry, the
    generated manifest under the same name.  The bytes of the generated
    manifest hold the tag [<file href="imsmanifest.xml" />]; its [href]s
    are a permutation of the file list, one for each staged entry and none
    for the generated manifest, so this [href] stands for the staged
    file. *)
Theorem C10_two_entries_named_imsmanifest (course_title uuid_hex : string)
    (t : tree) (d : bytes) (launch file_name : string)
    (archive : list (string * bytes)) :
  In (file ["imsmanifest.xml"] d) t ->
  chosen_launch t = Some launch ->
  package course_title uuid_hex t = Download file_name archive ->
  exists manifest_bytes before between,
    generate_manifest ET.default_namespace_map course_title
      (scorm_id uuid_hex) launch (file_list t) = Some manifest_bytes
    /\ archive
       = (before ++ ("imsmanifest.xml", d) :: between
          ++ [("imsmanifest.xml", manifest_bytes)])%list
    /\ (exists reg',
          register_namespaces ET.default_namespace_map = Some reg'
          /\ manifest_bytes
             = (xml_declaration
                ++ utf8_encode
                     (ET._serialize_xml (ET.qname_text reg' adlcp_only)
                        adlcp_only
                        (manifest_tree course_title (scorm_id uuid_hex)
                           launch (file_list t))))%list)
    /\ occurs_in
         (utf8_encode ("<file href=" ++ ET.quoted "imsmanifest.xml" ++ " />"))
         manifest_bytes
    /\ In "imsmanifest.xml"
         (file_hrefs (manifest_tree course_title (scorm_id uuid_hex) launch
                        (file_list t)))
    /\ Permutation (file_list t)
         (file_hrefs (manifest_tree course_title (scorm_id uuid_hex) launch
                        (file_list t)))
    /\ List.length
         (file_hrefs (manifest_tree course_title (scorm_id uuid_hex) launch
                        (file_list t)))
       = List.length (before ++ ("imsmanifest.xml", d) :: between)%list.
Proof.
  intros Hin Hlaunch Hdown.
  destruct (package_download course_title uuid_hex t launch Hlaunch)
    as (m & Hgen & Hpkg).
  rewrite Hpkg in Hdown.
  destruct (staged_entries t) as [written|] eqn:Hst; [|discriminate].
  injection Hdown as _ <-.
  assert (Hfile : In (file ["imsmanifest.xml"] d) (filter is_file (rglob "*" t)))
    by (rewrite rglob_star; apply filter_In; now split).
  destruct (written_entry_of_file _ _ _ ("imsmanifest.xml", d) Hst Hfile
              eq_refl) as (before & between & Hsplit).
  assert (Hlisted : In "imsmanifest.xml" (file_list t)).
  { unfold file_list. apply in_map_iff.
    exists (file ["imsmanifest.xml"] d). now split. }
  exists m, before, between.
  split; [exact Hgen|]. split; [now rewrite Hsplit, <- app_assoc|].
  split; [exact (manifest_bytes_of_tree _ _ _ _ _ _ Hgen)|].
  split; [exact (manifest_bytes_hold_file _ _ _ _ _ _ _ Hgen Hlisted)|].
  rewrite file_hrefs_file_list.
  split; [now apply sorted_In|]. split; [apply sorted_perm|].
  rewrite <- Hsplit, <- (Permutation_length (sorted_perm _ (file_list t))).
  unfold file_list. rewrite length_map.
  apply write_all_Some, Forall2_length in Hst. exact Hst.
Qed.

Lemma C10_witness :
  In (file ["imsmanifest.xml"] (b "<manifest/>")) tree_with_manifest
  /\ chosen_launch tree_with_manifest = Some "index.html"
  /\ exists manifest_bytes,
       package "Demo Course" demo_uuid_hex tree_with_manifest
       = Download "Demo_Course_SCORM.zip"
           [("imsmanifest.xml", b "<manifest/>");
            ("index.html", b "<html></html>");
            ("imsmanifest.xml", manifest_bytes)]
       /\ occurs_in
            (utf8_encode
               ("<file href=" ++ ET.quoted "imsmanifest.xml" ++ " />"))
            manifest_bytes.
Proof.
  assert (Hin : In (file ["imsmanifest.xml"] (b "<manifest/>"))
                   tree_with_manifest) by (simpl; tauto).
  split; [exact Hin|]. split; [reflexivity|].
  destruct (package_download "Demo Course" demo_uuid_hex tree_with_manifest
              "index.html" eq_refl) as (m & Hgen & Hpkg).
  exists m.
  assert (Hdown : package "Demo Course" demo_uuid_hex tree_with_manifest
                  = Download "Demo_Course_SCORM.zip"
                      [("imsmanifest.xml", b "<manifest/>");
                       ("index.html", b "<html></html>");
                       ("imsmanifest.xml", m)])
    by exact Hpkg.
  split; [exact Hdown|].
  destruct (C10_two_entries_named_imsmanifest "Demo Course" demo_uuid_hex
              tree_with_manifest (b "<manifest/>") "index.html" _ _
              Hin eq_refl Hdown)
    as (m' & _ & _ & Hgen' & _ & _ & Hocc & _).
  assert (Heq : m' = m) by congruence. now subst m'.
Defined.

(** C10 as worded fails when another staged file has a name that the
    archive writer normalises to nothing, here a single backslash: the tree
    holds [imsmanifest.xml] and a launch file, but [zf.write] raises
    [IndexError] and no archive is offered. *)
Lemma C10_counterexample :
  In (file ["imsmanifest.xml"] (b "<manifest/>")) tree_with_backslash_file
  /\ chosen_launch tree_with_backslash_file = Some "index.html"
  /\ ZipFile.from_file (PyStr.replace "\" "/" "\") = None
  /\ package "Demo Course" demo_uuid_hex tree_with_backslash_file
     = Uncaught IndexError.
Proof.
  split; [simpl; tauto|]. split; [reflexivity|]. split; [reflexivity|].
  vm_compute. reflexivity.
Qed.


(* ===================================================================== *)
(** ** What a package holds *)
(* ===================================================================== *)

(** X3.  When the script has chosen a launch file, the run ends with a
    download or with the [IndexError] of [zf.write]; the error comes up
    exactly when the normalised name of some staged regular file is
    empty.  The archive of a download holds, in walk order, one entry per
    staged regular file, under the name [ZipInfo.from_file] makes of its
    relative path and with its content (directories are left out),
    followed by [imsmanifest.xml]; the bytes of that manifest hold the
    [file] tag of every staged regular file.  When every staged regular
    file has plain path components, the run ends with a download, the
    entry names are the relative paths themselves, and the [href]s of the
    manifest are a permutation of them. *)
Theorem X3_package_contents (course_title uuid_hex : string) (t : tree)
    (launch : string) :
  chosen_launch t = Some launch ->
  exists manifest_bytes,
    generate_manifest ET.default_namespace_map course_title
      (scorm_id uuid_hex) launch (file_list t) = Some manifest_bytes
    /\ package course_title uuid_hex t
       = match staged_entries t with
         | None => Uncaught IndexError
         | Some written =>
             Download (pkg_name course_title)
               (written ++ [("imsmanifest.xml", manifest_bytes)])%list
         end
    /\ (exists reg',
          register_namespaces ET.default_namespace_map = Some reg'
          /\ manifest_bytes
             = (xml_declaration
                ++ utf8_encode
                     (ET._serialize_xml (ET.qname_text reg' adlcp_only)
                        adlcp_only
                        (manifest_tree course_title (scorm_id uuid_hex)
                           launch (file_list t))))%list)
    /\ (staged_entries t = None
        <-> exists p, In p t /\ is_file p = true
                      /\ ZipFile.from_file (PyStr.replace "\" "/" (str_rel p))
                         = None)
    /\ (forall written, staged_entries t = Some written ->
          Forall2 (fun p entry =>
                     ZipFile.from_file (PyStr.replace "\" "/" (str_rel p))
                     = Some (fst entry)
                     /\ snd entry = data p)
            (filter is_file t) written)
    /\ (forall p, In p t -> is_file p = true ->
          occurs_in
            (utf8_encode
               ("<file href="
                ++ ET.quoted (ET._escape_attrib
                                (PyStr.replace "\" "/" (str_rel p)))
                ++ " />"))
            manifest_bytes)
    /\ ((forall e, In e t -> is_file e = true -> plain_parts (parts e) = true)
        -> package course_title uuid_hex t
           = Download (pkg_name course_title)
               (map (fun e => (str_rel e, data e)) (filter is_file t)
                ++ [("imsmanifest.xml", manifest_bytes)])%list
           /\ Permutation (map str_rel (filter is_file t))
                (file_hrefs (manifest_tree course_title (scorm_id uuid_hex)
                               launch (file_list t)))).
Proof.
  intros Hlaunch.
  destruct (package_download course_title uuid_hex t launch Hlaunch)
    as (m & Hgen & Hpkg).
  exists m. split; [exact Hgen|]. split; [exact Hpkg|].
  split; [exact (manifest_bytes_of_tree _ _ _ _ _ _ Hgen)|].
  split; [|split; [|split]].
  - unfold staged_entries. rewrite rglob_star, write_all_None.
    split.
    + intros (p & Hp & Hn). apply filter_In in Hp as [Hp Hf].
      exists p. now rewrite <- zf_write_None.
    + intros (p & Hp & Hf & Hn). exists p.
      split; [apply filter_In; now split|now apply zf_write_None].
  - intros written Hw. unfold staged_entries in Hw.
    rewrite rglob_star in Hw. apply write_all_Some in Hw.
    induction Hw as [|p [n d] files rest Hp _ IH]; constructor; [|exact IH].
    unfold zf_write in Hp.
    destruct (ZipFile.from_file (PyStr.replace "\" "/" (str_rel p)));
      [|discriminate].
    injection Hp as <- <-. now split.
  - intros p Hp Hf.
    assert (Hlisted : In (PyStr.replace "\" "/" (str_rel p)) (file_list t)).
    { unfold file_list. rewrite rglob_star. apply in_map_iff.
      exists p. split; [reflexivity|]. apply filter_In. now split. }
    pose proof (manifest_bytes_hold_file _ _ _ _ _ _ _ Hgen Hlisted) as Hocc.
    unfold file_tag in Hocc. now rewrite (replace_backslash_id _ (replace_backslash_clean _)) in Hocc.
  - intros Hplain. split.
    + now rewrite Hpkg, (staged_entries_plain t Hplain).
    + rewrite file_hrefs_file_list, (file_list_plain t Hplain).
      apply sorted_perm.
Qed.

Lemma X3_witness :
  chosen_launch tree_docs_only = Some "docs/index.html"
  /\ exists manifest_bytes,
       package "Demo Course" demo_uuid_hex tree_docs_only
       = Download "Demo_Course_SCORM.zip"
           [("style.css", b "body {}");
            ("docs/index.html", b "<html>docs</html>");
            ("imsmanifest.xml", manifest_bytes)].
Proof.
  split; [reflexivity|].
  destruct (X3_package_contents "Demo Course" demo_uuid_hex tree_docs_only
              "docs/index.html" eq_refl) as (m & _ & Hpkg & _).
  exists m. exact Hpkg.
Defined.


(* ===================================================================== *)
(** ** How a run can end *)
(* ===================================================================== *)




(* ===================================================================== *)
(** ** A single uploaded document *)
(* ===================================================================== *)







(* ===================================================================== *)
(** ** What holds when no directory has an HTML name *)
(* ===================================================================== *)

(** X1.  If no entry of the staged tree has a name ending in [.html] or
    [.htm], the script stops with the error for missing content: there is
    no download. *)
Theorem X1_no_html_name_no_package (course_title uuid_hex : string) (t : tree) :
  (forall e, In e t -> html_name e = false) ->
  package course_title uuid_hex t = Error no_content_msg.
Proof.
  intros Hnone. unfold package, html_files.
  rewrite !rglob_none; [reflexivity| |];
    intros p Hp; specialize (Hnone p Hp); unfold html_name in Hnone;
    now apply orb_false_elim in Hnone.
Qed.

Lemma X1_witness :
  (forall e, In e [file ["style.css"] (b "body {}")] -> html_name e = false)
  /\ package "Demo Course" demo_uuid_hex [file ["style.css"] (b "body {}")]
     = Error no_content_msg.
Proof.
  assert (H : forall e, In e [file ["style.css"] (b "body {}")] ->
                        html_name e = false).
  { intros e [<-|[]]. reflexivity. }
  split; [exact H|].
  exact (X1_no_html_name_no_package "Demo Course" demo_uuid_hex
           [file ["style.css"] (b "body {}")] H).
Defined.

(** X2.  If every entry with an HTML/HTM name is a regular file, the
    launch file the script chooses is one of the paths of its file list,
    which is therefore not empty. *)
Theorem X2_launch_file_in_file_list (t : tree) (launch : string) :
  (forall e, In e t -> html_name e = true -> is_file e = true) ->
  chosen_launch t = Some launch ->
  In launch (file_list t).
Proof.
  intros Hfiles. unfold chosen_launch, launch_file.
  assert (Hlisted : forall e, In e t -> html_name e = true ->
                    In (PyStr.replace "\" "/" (str_rel e)) (file_list t)).
  { intros e He Hn. unfold file_list. apply in_map_iff. exists e.
    split; [reflexivity|]. rewrite rglob_star. apply filter_In. auto. }
  destruct (html_files t) as [|first rest] eqn:E; [discriminate|].
  destruct (exists_at_root "index.html" t) eqn:Hroot; intros [= <-].
  - apply exists_at_root_In in Hroot as (e & He & Hparts).
    assert (Hn : html_name e = true)
      by (unfold html_name, name; now rewrite Hparts).
    specialize (Hlisted e He Hn). unfold str_rel in Hlisted.
    now rewrite Hparts in Hlisted.
  - assert (Hfirst : In first (html_files t)) by (rewrite E; now left).
    unfold html_files in Hfirst.
    apply in_app_or in Hfirst as [H|H]; apply filter_In in H as [Ht Hm];
      apply Hlisted; auto; unfold html_name; rewrite Hm;
      [reflexivity|apply orb_true_r].
Qed.

Lemma X2_witness :
  (forall e, In e tree_docs_only -> html_name e = true -> is_file e = true)
  /\ chosen_launch tree_docs_only = Some "docs/index.html"
  /\ In "docs/index.html" (file_list tree_docs_only).
Proof.
  assert (H : forall e, In e tree_docs_only -> html_name e = true ->
                        is_file e = true).
  { intros e [<-|[<-|[<-|[]]]]; intros Hn; first [reflexivity|discriminate Hn]. }
  split; [exact H|]. split; [reflexivity|].
  exact (X2_launch_file_in_file_list tree_docs_only "docs/index.html" H eq_refl).
Defined.


(* ===================================================================== *)
(** ** [generate_manifest] on any file list *)
(* ===================================================================== *)

(** X7.  For every file list, normalised or not: the manifest has one
    [file] child per entry of the list (duplicates are kept), each [href]
    is the entry with its backslashes turned into slashes, and the children
    stand in the sorted order of the entries as given, that is before the
    backslashes are replaced.  When no entry holds a backslash the [href]s
    are the entries themselves, in lexicographic order. *)
Theorem X7_hrefs_of_any_file_list (title identifier launch : string)
    (fl : list string) :
  file_hrefs (manifest_tree title identifier launch fl)
  = map (PyStr.replace "\" "/") (sorted (fun f => f) fl)
  /\ List.length (file_hrefs (manifest_tree title identifier launch fl))
     = List.length fl
  /\ Permutation (map (PyStr.replace "\" "/") fl)
       (file_hrefs (manifest_tree title identifier launch fl))
  /\ Forall (fun h => PyStr.contains_char "\" h = false)
       (file_hrefs (manifest_tree title identifier launch fl))
  /\ (Forall (fun f => PyStr.contains_char "\" f = false) fl ->
      Permutation fl (file_hrefs (manifest_tree title identifier launch fl))
      /\ StronglySorted (fun h1 h2 => String.leb h1 h2 = true)
           (file_hrefs (manifest_tree title identifier launch fl))).
Proof.
  rewrite file_hrefs_manifest.
  split; [reflexivity|]. split; [|split; [|split]].
  - rewrite length_map. symmetry.
    apply Permutation_length, sorted_perm.
  - apply Permutation_map, sorted_perm.
  - apply Forall_forall. intros h Hin.
    apply in_map_iff in Hin as (f & <- & _). apply replace_backslash_clean.
  - intros Hclean.
    assert (Hid : map (PyStr.replace "\" "/") (sorted (fun f => f) fl)
                  = sorted (fun f => f) fl).
    { rewrite <- (map_id (sorted (fun f => f) fl)) at 2.
      apply map_ext_in. intros f Hin. apply replace_backslash_id.
      apply (proj1 (sorted_In (fun f => f) fl f)) in Hin.
      rewrite Forall_forall in Hclean. now apply Hclean. }
    rewrite Hid. split; [apply sorted_perm|].
    apply (sorted_ordered (fun f : string => f)).
Qed.

(* ===================================================================== *)
(** ** More on the name of the package *)
(* ===================================================================== *)

Lemma length_app (s1 s2 : string) :
  String.length (s1 ++ s2) = String.length s1 + String.length s2.
Proof. induction s1 as [|c s1 IH]; simpl; congruence. Qed.

Lemma substring_all (s : string) : String.substring 0 (String.length s) s = s.
Proof. induction s as [|c s IH]; simpl; congruence. Qed.

Lemma substring_skip (s1 s2 : string) (m : nat) :
  String.substring (String.length s1) m (s1 ++ s2) = String.substring 0 m s2.
Proof. induction s1 as [|c s1 IH]; simpl; [reflexivity|exact IH]. Qed.

Lemma endswith_app (s p : string) : PyStr.endswith (s ++ p) p = true.
Proof.
  unfold PyStr.endswith. rewrite length_app.
  replace (String.length s + String.length p - String.length p)
    with (String.length s) by lia.
  rewrite substring_skip, substring_all, String.eqb_refl.
  apply andb_true_iff. split; [apply Nat.leb_le; lia|reflexivity].
Qed.

Lemma underscore_spaces_no_space (s : string) :
  PyStr.contains_char " " (underscore_spaces s) = false.
Proof.
  unfold underscore_spaces. induction s as [|c s IH]; [reflexivity|].
  cbn [map_chars PyStr.contains_char]. rewrite IH, orb_false_r.
  destruct (Ascii.eqb c " ") eqn:E; [reflexivity|].
  now rewrite Ascii.eqb_sym.
Qed.

(** X8.  The name of the package never holds a space character, always
    ends with [_SCORM.zip], and is ten characters longer than the title
    without its leading and trailing white space. *)
Theorem X8_pkg_name_shape (course_title : string) :
  PyStr.contains_char " " (pkg_name course_title) = false
  /\ PyStr.endswith (pkg_name course_title) "_SCORM.zip" = true
  /\ String.length (pkg_name course_title)
     = String.length (PyStr.strip course_title) + 10.
Proof.
  unfold pkg_name. rewrite replace_space_underscore. repeat split.
  - now rewrite contains_char_app, underscore_spaces_no_space.
  - apply endswith_app.
  - rewrite length_app. unfold underscore_spaces.
    f_equal. induction (PyStr.strip course_title) as [|c s IH];
      simpl; congruence.
Qed.

Lemma lstrip_all_space (s : string) :
  all_space s = true -> PyStr.lstrip s = "".
Proof.
  induction s as [|c s IH]; simpl; [reflexivity|].
  intros H. apply andb_true_iff in H as [Hc Hs]. now rewrite Hc, IH.
Qed.

(** X9.  A title that is empty or made of white space only gives the
    package the bare name [_SCORM.zip]. *)
Theorem X9_blank_title (course_title : string) :
  all_space course_title = true -> pkg_name course_title = "_SCORM.zip".
Proof.
  intros H. unfold pkg_name, PyStr.strip.
  now rewrite lstrip_all_space.
Qed.

Lemma X9_witness :
  all_space ("  " ++ PyStr.chr PyStr.tab) = true
  /\ pkg_name ("  " ++ PyStr.chr PyStr.tab) = "_SCORM.zip".
Proof.
  split; [reflexivity|].
  exact (X9_blank_title ("  " ++ PyStr.chr PyStr.tab) eq_refl).
Defined.

(* ===================================================================== *)
(** ** The identifier *)
(* ===================================================================== *)

Lemma substring_contained (c : ascii) (s : string) :
  forall n m,
    PyStr.contains_char c s = false ->
    PyStr.contains_char c (String.substring n m s) = false.
Proof.
  induction s as [|d s IH]; intros n m H.
  - now destruct n, m.
  - cbn [PyStr.contains_char] in H. apply orb_false_elim in H as [Hd Hs].
    destruct n as [|n]; destruct m as [|m]; cbn; auto.
    now rewrite Hd, IH.
Qed.

Lemma substring_length (s : string) :
  forall n m,
    n + m <= String.length s -> String.length (String.substring n m s) = m.
Proof.
  induction s as [|d s IH]; intros n m H; simpl in H.
  - assert (n = 0) by lia. assert (m = 0) by lia. now subst.
  - destruct n as [|n]; destruct m as [|m]; simpl; auto;
      try f_equal; apply IH; lia.
Qed.

Lemma all_hex_excludes (c : ascii) (s : string) :
  is_hex_digit c = false -> all_hex s = true ->
  PyStr.contains_char c s = false.
Proof.
  intros Hc. induction s as [|d s IH]; simpl; [reflexivity|].
  intros H. apply andb_true_iff in H as [Hd Hs]. rewrite (IH Hs), orb_false_r.
  destruct (Ascii.eqb_spec c d) as [->|_]; [congruence|reflexivity].
Qed.

Lemma scorm_id_excludes (c : ascii) (uuid_hex : string) :
  is_hex_digit c = false ->
  PyStr.contains_char c "com.example.scorm." = false ->
  all_hex uuid_hex = true ->
  PyStr.contains_char c (scorm_id uuid_hex) = false.
Proof.
  intros Hc Hp Hh. unfold scorm_id.
  rewrite contains_char_app, Hp.
  now apply substring_contained, all_hex_excludes.
Qed.

Lemma space_not_in_scorm_id (c : ascii) :
  PyStr.isspace c = true ->
  is_hex_digit c = false
  /\ PyStr.contains_char c "com.example.scorm." = false.
Proof.
  destruct c as [[] [] [] [] [] [] [] []]; intros H;
    first [discriminate H | split; reflexivity].
Qed.

(** X10.  For the hexadecimal text of a UUID (digits and [a]..[f], at
    least eight of them) the identifier is [com.example.scorm.] followed by
    the first eight characters: 26 characters, none of them white space,
    and none that the serialiser escapes, so the manifest carries the
    identifier as it is. *)
Theorem X10_scorm_id_written_verbatim (uuid_hex : string) :
  all_hex uuid_hex = true ->
  8 <= String.length uuid_hex ->
  scorm_id uuid_hex = "com.example.scorm." ++ String.substring 0 8 uuid_hex
  /\ String.length (scorm_id uuid_hex) = 26
  /\ (forall c, PyStr.isspace c = true ->
                PyStr.contains_char c (scorm_id uuid_hex) = false)
  /\ ET._escape_attrib (scorm_id uuid_hex) = scorm_id uuid_hex.
Proof.
  intros Hhex Hlen. split; [reflexivity|]. split; [|split].
  - unfold scorm_id. rewrite length_app, substring_length by lia. reflexivity.
  - intros c Hc. destruct (space_not_in_scorm_id c Hc) as [H1 H2].
    now apply scorm_id_excludes.
  - unfold ET._escape_attrib, ET.replace_char.
    rewrite !scorm_id_excludes by (reflexivity || exact Hhex).
    reflexivity.
Qed.

Lemma X10_witness :
  all_hex demo_uuid_hex = true
  /\ 8 <= String.length demo_uuid_hex
  /\ scorm_id demo_uuid_hex = "com.example.scorm.0a1b2c3d"
  /\ ET._escape_attrib (scorm_id demo_uuid_hex) = scorm_id demo_uuid_hex.
Proof.
  assert (Hlen : 8 <= String.length demo_uuid_hex) by (simpl; lia).
  destruct (X10_scorm_id_written_verbatim demo_uuid_hex eq_refl Hlen)
    as (_ & _ & _ & Hesc).
  split; [reflexivity|]. split; [exact Hlen|]. split; [reflexivity|exact Hesc].
Defined.


(* ===================================================================== *)
(** ** The manifest does not depend on the order of the file list *)
(* ===================================================================== *)

(** Two sorted lists of strings with the same elements are equal. *)
Lemma sorted_strings_unique (l1 : list string) :
  forall l2,
    StronglySorted (key_le (fun f => f)) l1 ->
    StronglySorted (key_le (fun f => f)) l2 ->
    Permutation l1 l2 -> l1 = l2.
Proof.
  induction l1 as [|x l1 IH]; intros l2 H1 H2 Hp.
  - now apply Permutation_nil in Hp.
  - destruct l2 as [|y l2];
      [now apply Permutation_sym, Permutation_nil in Hp|].
    apply StronglySorted_inv in H1 as [H1 Hx].
    apply StronglySorted_inv in H2 as [H2 Hy].
    rewrite Forall_forall in Hx, Hy.
    assert (Hxy : x = y).
    { assert (Hin : In x (y :: l2))
        by (apply (Permutation_in _ Hp); now left).
      assert (Hin' : In y (x :: l1))
        by (apply (Permutation_in _ (Permutation_sym Hp)); now left).
      destruct Hin as [->|Hin]; [reflexivity|].
      destruct Hin' as [->|Hin']; [reflexivity|].
      apply String.leb_antisym; [now apply Hx|now apply Hy]. }
    subst y. f_equal. apply IH; auto.
    now apply Permutation_cons_inv in Hp.
Qed.

Lemma sorted_of_permutation (fl1 fl2 : list string) :
  Permutation fl1 fl2 ->
  sorted (fun f => f) fl1 = sorted (fun f => f) fl2.
Proof.
  intros Hp. apply sorted_strings_unique; try apply sorted_ordered.
  rewrite <- (sorted_perm (fun f : string => f) fl1).
  now rewrite <- (sorted_perm (fun f : string => f) fl2).
Qed.

(** X11.  Two file lists that hold the same paths the same number of
    times, in whatever order, give the same element tree and the same
    bytes: the order of the directory walk does not show in the
    manifest. *)
Theorem X11_manifest_ignores_list_order (reg : list (string * string))
    (title identifier launch : string) (fl1 fl2 : list string) :
  Permutation fl1 fl2 ->
  manifest_tree title identifier launch fl1
  = manifest_tree title identifier launch fl2
  /\ generate_manifest reg title identifier launch fl1
     = generate_manifest reg title identifier launch fl2.
Proof.
  intros Hp.
  assert (Ht : manifest_tree title identifier launch fl1
               = manifest_tree title identifier launch fl2)
    by (rewrite !manifest_tree_shape; now rewrite (sorted_of_permutation _ _ Hp)).
  split; [exact Ht|]. unfold generate_manifest. now rewrite Ht.
Qed.

Lemma X11_witness :
  Permutation ["js/app.js"; "index.html"] ["index.html"; "js/app.js"]
  /\ generate_manifest ET.default_namespace_map "Demo Course"
       "com.example.scorm.0a1b2c3d" "index.html" ["js/app.js"; "index.html"]
     = generate_manifest ET.default_namespace_map "Demo Course"
         "com.example.scorm.0a1b2c3d" "index.html" ["index.html"; "js/app.js"].
Proof.
  assert (Hp : Permutation ["js/app.js"; "index.html"]
                           ["index.html"; "js/app.js"]) by apply perm_swap.
  split; [exact Hp|].
  exact (proj2 (X11_manifest_ignores_list_order ET.default_namespace_map
                  "Demo Course" "com.example.scorm.0a1b2c3d" "index.html"
                  _ _ Hp)).
Defined.

(* ===================================================================== *)
(** ** What the patterns of [rglob] match *)
(* ===================================================================== *)

Lemma fnmatch_literal (p : string) :
  literal_pattern p = true ->
  forall n, PyStr.fnmatch p n = String.eqb p n.
Proof.
  induction p as [|c p IH]; intros Hlit n.
  - now destruct n.
  - cbn [literal_pattern] in Hlit.
    apply andb_true_iff in Hlit as [Hc Hp].
    apply andb_true_iff in Hc as [Hstar Hq].
    apply negb_true_iff in Hstar, Hq.
    cbn [PyStr.fnmatch]. rewrite Hstar.
    destruct n as [|d n]; [reflexivity|].
    rewrite Hq, (IH Hp). reflexivity.
Qed.

Lemma fnmatch_star_suffix (p : string) :
  literal_pattern p = true ->
  forall n, PyStr.fnmatch (String "*" p) n = has_suffix p n.
Proof.
  intros Hlit n. cbn [PyStr.fnmatch].
  change (Ascii.eqb "*" "*") with true. cbv iota.
  induction n as [|d n IH]; cbn [has_suffix].
  - now rewrite (fnmatch_literal p Hlit).
  - rewrite (fnmatch_literal p Hlit). f_equal. exact IH.
Qed.

Lemma has_suffix_iff (p n : string) :
  has_suffix p n = true <-> exists pre, n = pre ++ p.
Proof.
  induction n as [|d n IH]; cbn [has_suffix].
  - rewrite orb_false_r, String.eqb_eq. split.
    + intros ->. now exists "".
    + intros ([|c pre] & H); [now simpl in H|discriminate].
  - rewrite orb_true_iff, String.eqb_eq, IH. split.
    + intros [->|(pre & ->)]; [now exists ""|now exists (String d pre)].
    + intros ([|c pre] & H); simpl in H; [now left|].
      injection H as -> ->. right. now exists pre.
Qed.

Lemma substring_split (n : string) :
  forall k m,
    k + m = String.length n ->
    n = String.substring 0 k n ++ String.substring k m n.
Proof.
  induction n as [|d n IH]; intros k m H; simpl in H.
  - assert (k = 0) by lia. assert (m = 0) by lia. now subst.
  - destruct k as [|k].
    + destruct m as [|m]; [discriminate|]. simpl.
      injection H as ->. now rewrite substring_all.
    + simpl. f_equal. apply IH. lia.
Qed.

Lemma endswith_iff (n p : string) :
  PyStr.endswith n p = true <-> exists pre, n = pre ++ p.
Proof.
  split.
  - unfold PyStr.endswith. intros H.
    apply andb_true_iff in H as [Hlen Heq].
    apply Nat.leb_le in Hlen. apply String.eqb_eq in Heq.
    exists (String.substring 0 (String.length n - String.length p) n).
    assert (Hsum : String.length n - String.length p + String.length p
                   = String.length n) by lia.
    pose proof (substring_split n _ _ Hsum) as Hs.
    rewrite Heq in Hs. exact Hs.
  - intros (pre & ->). apply endswith_app.
Qed.

Lemma fnmatch_star_endswith (p n : string) :
  literal_pattern p = true ->
  PyStr.fnmatch (String "*" p) n = PyStr.endswith n p.
Proof.
  intros Hlit. rewrite (fnmatch_star_suffix p Hlit).
  destruct (has_suffix p n) eqn:E1; destruct (PyStr.endswith n p) eqn:E2;
    try reflexivity.
  - apply has_suffix_iff, endswith_iff in E1. congruence.
  - apply endswith_iff, has_suffix_iff in E2. congruence.
Qed.

Lemma get_after_prefix (pre s : string) (i : nat) :
  String.get (String.length pre + i) (pre ++ s) = String.get i s.
Proof. induction pre as [|c pre IH]; simpl; auto. Qed.

(** No name ends with both [.html] and [.htm]. *)
Lemma html_htm_disjoint (n : string) :
  PyStr.fnmatch "*.html" n && PyStr.fnmatch "*.htm" n = false.
Proof.
  destruct (PyStr.fnmatch "*.html" n) eqn:E1; [|reflexivity].
  destruct (PyStr.fnmatch "*.htm" n) eqn:E2; [|reflexivity].
  exfalso.
  rewrite (fnmatch_star_endswith ".html" n eq_refl) in E1.
  rewrite (fnmatch_star_endswith ".htm" n eq_refl) in E2.
  apply endswith_iff in E1 as (pre1 & H1).
  apply endswith_iff in E2 as (pre2 & H2).
  assert (Hl : String.length (pre1 ++ ".html") = String.length (pre2 ++ ".htm"))
    by congruence.
  rewrite !length_app in Hl. simpl in Hl.
  pose proof (get_after_prefix pre1 ".html" 4) as G1.
  pose proof (get_after_prefix pre2 ".htm" 3) as G2.
  rewrite <- H1 in G1. rewrite <- H2 in G2.
  replace (String.length pre2 + 3) with (String.length pre1 + 4) in G2 by lia.
  rewrite G1 in G2. discriminate G2.
Qed.

(** X12.  [rglob('*.html')] finds exactly the entries whose name ends with
    [.html], and [rglob('*.htm')] those whose name ends with [.htm], in
    both cases letter for letter; no name matches both patterns. *)
Theorem X12_patterns_match_name_endings (n : string) :
  PyStr.fnmatch "*.html" n = PyStr.endswith n ".html"
  /\ PyStr.fnmatch "*.htm" n = PyStr.endswith n ".htm"
  /\ PyStr.fnmatch "*.html" n && PyStr.fnmatch "*.htm" n = false.
Proof.
  split; [now apply fnmatch_star_endswith|].
  split; [now apply fnmatch_star_endswith|apply html_htm_disjoint].
Qed.


(* ===================================================================== *)
(** ** The manifest does not depend on the prefix registry *)
(* ===================================================================== *)

(** The serialisation only looks at the written form of the names that
    occur in the tree. *)
Lemma serialize_ext (qn1 qn2 : string -> string) (e : ET.Element) :
  Forall (fun q => qn1 q = qn2 q) (flat_map ET.names_of (ET.iter e)) ->
  forall namespaces,
    ET._serialize_xml qn1 namespaces e = ET._serialize_xml qn2 namespaces e.
Proof.
  induction e as [t a x cs IH] using Element_induction.
  intros Hnames namespaces.
  cbn [ET.iter flat_map] in Hnames.
  apply Forall_app in Hnames as [Hown Hcs].
  unfold ET.names_of in Hown. cbn [ET.tag ET.attrib] in Hown.
  apply Forall_cons_iff in Hown as [Ht Ha].
  cbn [ET._serialize_xml]. rewrite Ht.
  assert (Eattr : map (ET.attr_text qn1) a = map (ET.attr_text qn2) a).
  { apply map_ext_in. intros [k v] Hin. unfold ET.attr_text.
    rewrite Forall_forall in Ha. rewrite (Ha k); [reflexivity|].
    apply in_map_iff. now exists (k, v). }
  assert (Echildren : map (ET._serialize_xml qn1 []) cs
                      = map (ET._serialize_xml qn2 []) cs).
  { apply map_ext_in. intros c Hc.
    rewrite Forall_forall in IH. apply (IH c Hc).
    rewrite Forall_forall in Hcs |- *. intros q Hq. apply Hcs.
    apply in_flat_map in Hq as (d & Hd & Hq).
    apply in_flat_map. exists d. split; [|exact Hq].
    apply in_flat_map. now exists c. }
  now rewrite Eattr, Echildren.
Qed.

Lemma manifest_names_agree (reg1 reg2 : list (string * string))
    (title identifier launch : string) (fs : list string) :
  Forall (fun q => ET.qname_text reg1 adlcp_only q
                   = ET.qname_text reg2 adlcp_only q)
    (flat_map ET.names_of
       (ET.iter (manifest_shape title identifier launch
                   (map file_element fs)))).
Proof.
  simpl. repeat (constructor; [reflexivity|]). rewrite !app_nil_r.
  induction fs as [|f fs IH]; simpl; [constructor|].
  repeat (constructor; [reflexivity|]). exact IH.
Qed.

(** X13.  [generate_manifest] registers its three prefixes on every call,
    in a registry that outlives the call; whatever that registry held
    before, and so also on a second call, the bytes are the same. *)
Theorem X13_manifest_ignores_registry (reg1 reg2 : list (string * string))
    (title identifier launch : string) (fl : list string) :
  generate_manifest reg1 title identifier launch fl
  = generate_manifest reg2 title identifier launch fl
  /\ forall reg1',
       register_namespaces reg1 = Some reg1' ->
       generate_manifest reg1' title identifier launch fl
       = generate_manifest reg1 title identifier launch fl.
Proof.
  assert (H : forall r1 r2,
            generate_manifest r1 title identifier launch fl
            = generate_manifest r2 title identifier launch fl).
  { intros r1 r2.
    destruct (generate_manifest_bytes r1 title identifier launch fl)
      as (r1' & _ & _ & ->).
    destruct (generate_manifest_bytes r2 title identifier launch fl)
      as (r2' & _ & _ & ->).
    do 3 f_equal. rewrite manifest_tree_shape.
    apply serialize_ext, manifest_names_agree. }
  split; [apply H|]. intros reg1' _. apply H.
Qed.


(* ===================================================================== *)
(** ** [html_files] *)
(* ===================================================================== *)

Lemma filter_disjoint_perm {A : Type} (f g : A -> bool) (l : list A) :
  (forall x, f x && g x = false) ->
  Permutation (filter f l ++ filter g l) (filter (fun x => f x || g x) l).
Proof.
  intros Hfg. induction l as [|x l IH]; simpl; [constructor|].
  specialize (Hfg x).
  destruct (f x), (g x); try discriminate; simpl.
  - now constructor.
  - rewrite <- Permutation_middle. now constructor.
  - exact IH.
Qed.

(** X14.  Although [html_files] joins the results of two walks, it holds
    every entry whose name ends in [.html] or [.htm] exactly once: it is a
    rearrangement of those entries of the walk (the [.html] ones first),
    and without repetition when the walk is. *)
Theorem X14_html_files_lists_each_entry_once (t : tree) :
  Permutation (html_files t) (filter html_name t)
  /\ (forall e, In e (html_files t) <-> In e t /\ html_name e = true)
  /\ (NoDup t -> NoDup (html_files t)).
Proof.
  assert (Hp : Permutation (html_files t) (filter html_name t)).
  { unfold html_files, rglob, html_name.
    apply (filter_disjoint_perm
             (fun e => PyStr.fnmatch "*.html" (name e))
             (fun e => PyStr.fnmatch "*.htm" (name e))).
    intros e. apply html_htm_disjoint. }
  split; [exact Hp|]. split.
  - intros e. rewrite <- filter_In. split; apply Permutation_in; auto.
    now apply Permutation_sym.
  - intros Hnd. apply (Permutation_NoDup (Permutation_sym Hp)).
    now apply NoDup_filter.
Qed.

(* ===================================================================== *)
(** ** The launch file in the manifest *)
(* ===================================================================== *)

Lemma launch_in_file_list (t : tree) (launch : string) :
  (forall e, In e t -> html_name e = true -> is_file e = true) ->
  chosen_launch t = Some launch ->
  In launch (file_list t).
Proof.
  intros Hfiles. unfold chosen_launch, launch_file.
  assert (Hlisted : forall e, In e t -> html_name e = true ->
                    In (PyStr.replace "\" "/" (str_rel e)) (file_list t)).
  { intros e He Hn. unfold file_list. apply in_map_iff. exists e.
    split; [reflexivity|]. rewrite rglob_star. apply filter_In. auto. }
  destruct (html_files t) as [|first rest] eqn:E; [discriminate|].
  destruct (exists_at_root "index.html" t) eqn:Hroot; intros [= <-].
  - apply exists_at_root_In in Hroot as (e & He & Hparts).
    assert (Hn : html_name e = true)
      by (unfold html_name, name; now rewrite Hparts).
    specialize (Hlisted e He Hn). unfold str_rel in Hlisted.
    now rewrite Hparts in Hlisted.
  - assert (Hfirst : In first (html_files t)) by (rewrite E; now left).
    unfold html_files in Hfirst.
    apply in_app_or in Hfirst as [H|H]; apply filter_In in H as [Ht Hm];
      apply Hlisted; auto; unfold html_name; rewrite Hm;
      [reflexivity|apply orb_true_r].
Qed.

(** X15.  If every entry with an HTML/HTM name is a regular file, the
    manifest the script builds is consistent: the [href] of its resource
    is the chosen launch file, and that path is also the [href] of one of
    the resource's [file] children. *)
Theorem X15_resource_href_is_a_listed_file (course_title uuid_hex : string)
    (t : tree) (launch : string) :
  (forall e, In e t -> html_name e = true -> is_file e = true) ->
  chosen_launch t = Some launch ->
  option_map (fun r => ET.get r "href")
    (resource_of (manifest_tree course_title (scorm_id uuid_hex) launch
                    (file_list t)))
  = Some (Some launch)
  /\ In launch
       (file_hrefs (manifest_tree course_title (scorm_id uuid_hex) launch
                      (file_list t))).
Proof.
  intros Hfiles Hlaunch. split; [apply resource_href|].
  rewrite file_hrefs_file_list. apply sorted_In.
  now apply launch_in_file_list.
Qed.

Lemma X15_witness :
  (forall e, In e tree_htm_before_html -> html_name e = true ->
             is_file e = true)
  /\ chosen_launch tree_htm_before_html = Some "b.html"
  /\ In "b.html"
       (file_hrefs (manifest_tree "Demo Course" (scorm_id demo_uuid_hex)
                      "b.html" (file_list tree_htm_before_html))).
Proof.
  assert (H : forall e, In e tree_htm_before_html -> html_name e = true ->
                        is_file e = true).
  { intros e [<-|[<-|[<-|[<-|[]]]]]; intros Hn;
      first [reflexivity|discriminate Hn]. }
  split; [exact H|]. split; [reflexivity|].
  exact (proj2 (X15_resource_href_is_a_listed_file "Demo Course"
                  demo_uuid_hex tree_htm_before_html "b.html" H eq_refl)).
Defined.


(* ===================================================================== *)
(** ** User text never opens a tag *)
(* ===================================================================== *)

Lemma count_byte_app (c : byte) (l1 l2 : bytes) :
  count_byte c (l1 ++ l2)%list = count_byte c l1 + count_byte c l2.
Proof. induction l1 as [|x l1 IH]; simpl; [reflexivity|]. rewrite IH. lia. Qed.

Lemma count_byte_absent (c : byte) (l : bytes) :
  existsb (Byte.eqb c) l = false -> count_byte c l = 0.
Proof.
  induction l as [|x l IH]; simpl; [reflexivity|].
  intros H. apply orb_false_elim in H as [Hx Hl]. now rewrite Hx, IH.
Qed.

Lemma count_lt_text (s : string) :
  no_lt s = true -> count_byte "<" (utf8_encode s) = 0.
Proof. intros H. now apply count_byte_absent, utf8_encode_no_lt. Qed.

Lemma count_lt_concat {A : Type} (f : A -> string) (l : list A) :
  count_byte "<" (utf8_encode (String.concat "" (map f l)))
  = list_sum (map (fun x => count_byte "<" (utf8_encode (f x))) l).
Proof.
  induction l as [|x l IH]; [reflexivity|].
  destruct l as [|y l]; [simpl; lia|].
  change (String.concat "" (map f (x :: y :: l)))
    with (f x ++ "" ++ String.concat "" (map f (y :: l))).
  rewrite utf8_encode_app, count_byte_app.
  change ("" ++ String.concat "" (map f (y :: l)))
    with (String.concat "" (map f (y :: l))).
  rewrite IH. reflexivity.
Qed.

Lemma count_lt_concat_text {A : Type} (f : A -> string) (l : list A) :
  (forall x, In x l -> no_lt (f x) = true) ->
  count_byte "<" (utf8_encode (String.concat "" (map f l))) = 0.
Proof.
  intros H. rewrite count_lt_concat.
  induction l as [|x l IH]; [reflexivity|]. simpl.
  rewrite count_lt_text by (apply H; now left).
  apply IH. intros y Hy. apply H. now right.
Qed.

(** In the serialisation of a well-named tree the byte [<] occurs once per
    tag, whatever the text and the attribute values are. *)
Lemma serialize_count_lt (qn : string -> string) (e : ET.Element) :
  forall namespaces,
    well_named qn e = true ->
    forallb (fun item => no_lt (snd item)) namespaces = true ->
    count_byte "<" (utf8_encode (ET._serialize_xml qn namespaces e))
    = tag_marks e.
Proof.
  induction e as [t a x cs IH] using Element_induction.
  intros namespaces Hwn Hns.
  cbn [well_named] in Hwn.
  apply andb_true_iff in Hwn as [Hwn Hcs].
  apply andb_true_iff in Hwn as [Ht Ha].
  assert (Htag : no_lt (qn t) = true).
  { unfold tag_ok in Ht. now apply andb_true_iff in Ht as [Ht _]. }
  cbn [ET._serialize_xml tag_marks].
  change ("<" ++ qn t
          ++ String.concat "" (map ET.xmlns_decl (sorted snd namespaces))
          ++ String.concat "" (map (ET.attr_text qn) a)
          ++ (if ET.truthy x || negb (Nat.eqb (List.length cs) 0)
              then ">" ++ match x with
                          | Some s => if ET.truthy x then ET._escape_cdata s else ""
                          | None => ""
                          end
                   ++ String.concat "" (map (ET._serialize_xml qn []) cs)
                   ++ "</" ++ qn t ++ ">"
              else " />"))
    with (String "<"
            (qn t
             ++ String.concat "" (map ET.xmlns_decl (sorted snd namespaces))
             ++ String.concat "" (map (ET.attr_text qn) a)
             ++ (if ET.truthy x || negb (Nat.eqb (List.length cs) 0)
                 then (">" ++ match x with
                              | Some s => if ET.truthy x then ET._escape_cdata s else ""
                              | None => ""
                              end)
                      ++ String.concat "" (map (ET._serialize_xml qn []) cs)
                      ++ String "<" ("/" ++ qn t ++ ">")
                 else " />"))).
  cbn [utf8_encode]. change (utf8_char "<") with ["<"%byte].
  cbn [app count_byte]. change (Byte.eqb "<" "<") with true. cbv iota.
  rewrite !utf8_encode_app, !count_byte_app.
  rewrite (count_lt_text (qn t) Htag).
  rewrite count_lt_concat_text.
  2:{ intros item Hin. apply xmlns_decl_no_lt.
      apply (proj1 (sorted_In snd namespaces item)) in Hin.
      rewrite forallb_forall in Hns. now apply Hns. }
  rewrite count_lt_concat_text.
  2:{ intros item Hin. apply attr_text_no_lt.
      rewrite forallb_forall in Ha. now apply Ha. }
  destruct (ET.truthy x || negb (Nat.eqb (List.length cs) 0));
    [|reflexivity].
  rewrite !utf8_encode_app, !count_byte_app.
  cbn [utf8_encode]. change (utf8_char "<") with ["<"%byte].
  cbn [app count_byte]. change (Byte.eqb "<" "<") with true. cbv iota.
  rewrite !utf8_encode_app, !count_byte_app.
  rewrite (count_lt_text (qn t) Htag).
  assert (Htext : count_byte "<"
                    (utf8_encode
                       match x with
                       | Some s => if ET.truthy x then ET._escape_cdata s else ""
                       | None => ""
                       end) = 0).
  { apply count_lt_text. destruct x as [s|]; [|reflexivity].
    destruct (ET.truthy (Some s)); [apply escape_cdata_no_lt|reflexivity]. }
  rewrite Htext.
  rewrite count_lt_concat.
  assert (Hchildren :
            map (fun c => count_byte "<" (utf8_encode (ET._serialize_xml qn [] c))) cs
            = map tag_marks cs).
  { apply map_ext_in. intros c Hc.
    rewrite forallb_forall in Hcs. rewrite Forall_forall in IH.
    apply IH; [exact Hc|now apply Hcs|reflexivity]. }
  rewrite Hchildren. simpl. lia.
Qed.


Lemma tag_marks_files (fs : list string) :
  list_sum (map tag_marks (map file_element fs)) = List.length fs.
Proof. induction fs as [|f fs IH]; simpl; congruence. Qed.

Lemma tag_marks_manifest (title identifier launch : string) (fs : list string) :
  tag_marks (manifest_shape title identifier launch (map file_element fs))
  = 16
    + 2 * (match title with EmptyString => 1 | String _ _ => 2 end)
    + (match fs with [] => 1 | _ :: _ => 2 + List.length fs end).
Proof.
  cbn [manifest_shape tag_marks map list_sum ET.truthy List.length
       Nat.eqb negb orb].
  rewrite length_map, tag_marks_files.
  destruct title; destruct fs; simpl; lia.
Qed.

(** X16.  The number of [<] bytes in the manifest depends only on whether
    the title is empty and on how many paths the file list holds: one for
    the declaration and one per tag.  Whatever characters the title, the
    identifier, the launch file and the paths contain, they never add a
    tag. *)
Theorem X16_user_text_adds_no_tag (reg : list (string * string))
    (title identifier launch : string) (fl : list string) :
  exists manifest_bytes,
    generate_manifest reg title identifier launch fl = Some manifest_bytes
    /\ count_byte "<" manifest_bytes
       = 17
         + 2 * (match title with EmptyString => 1 | String _ _ => 2 end)
         + (match fl with [] => 1 | _ :: _ => 2 + List.length fl end).
Proof.
  destruct (generate_manifest_bytes reg title identifier launch fl)
    as (reg' & _ & _ & Hgen).
  eexists. split; [exact Hgen|].
  rewrite count_byte_app. change (count_byte "<" xml_declaration) with 1.
  rewrite manifest_tree_shape.
  rewrite serialize_count_lt;
    [|apply well_named_manifest|reflexivity].
  rewrite tag_marks_manifest.
  assert (Hlen : List.length (sorted (fun f => f) fl) = List.length fl)
    by (symmetry; apply Permutation_length, sorted_perm).
  destruct (sorted (fun f => f) fl) as [|x l]; destruct fl as [|y fl'];
    simpl in Hlen; try discriminate; [reflexivity|].
  cbn [List.length]. lia.
Qed.


(* ===================================================================== *)
(** ** The package of a single uploaded document *)
(* ===================================================================== *)











(* ===================================================================== *)
(** ** Characters XML does not allow *)
(* ===================================================================== *)

Lemma xml_chars_app (s1 s2 : string) :
  xml_chars (s1 ++ s2) = xml_chars s1 && xml_chars s2.
Proof.
  induction s1 as [|c s1 IH]; [reflexivity|].
  cbn [append xml_chars]. now rewrite IH, andb_assoc.
Qed.

(** Replacing a character XML allows leaves the other ones in place. *)
Lemma subst_char_keeps_forbidden (c : ascii) (new s : string) :
  xml_char c = true -> xml_chars s = false ->
  xml_chars (subst_char c new s) = false.
Proof.
  intros Hc. induction s as [|d s IH]; [discriminate|].
  cbn [xml_chars subst_char]. intros H.
  destruct (Ascii.eqb d c) eqn:E.
  - apply Ascii.eqb_eq in E. subst d. rewrite Hc in H.
    rewrite xml_chars_app, (IH H). apply andb_false_r.
  - cbn [xml_chars]. apply andb_false_iff in H as [H|H].
    + now rewrite H.
    + rewrite (IH H). apply andb_false_r.
Qed.

Lemma replace_char_keeps_forbidden (c : ascii) (new s : string) :
  xml_char c = true -> xml_chars s = false ->
  xml_chars (ET.replace_char c new s) = false.
Proof.
  intros Hc Hs. unfold ET.replace_char.
  destruct (PyStr.contains_char c s); [|exact Hs].
  rewrite replace_chr. now apply subst_char_keeps_forbidden.
Qed.

(** [_escape_cdata] lets every other character through, the ones XML
    forbids among them. *)
Lemma escape_cdata_keeps_forbidden (s : string) :
  xml_chars s = false -> xml_chars (ET._escape_cdata s) = false.
Proof.
  intros H. unfold ET._escape_cdata.
  repeat (apply replace_char_keeps_forbidden; [reflexivity|]). exact H.
Qed.

Lemma manifest_text_holds_title (reg : list (string * string))
    (title identifier launch : string) (files : list ET.Element) :
  title <> "" ->
  exists pre post,
    ET._serialize_xml (ET.qname_text reg adlcp_only) adlcp_only
      (manifest_shape title identifier launch files)
    = pre ++ ("<title>" ++ ET._escape_cdata title ++ "</title>") ++ post.
Proof.
  intros Hne. destruct title as [|c title]; [congruence|]. clear Hne.
  unfold manifest_shape.
  set (qn := ET.qname_text reg adlcp_only).
  match goal with
  | |- context [ET.Elem "manifest" ?a None [?m; ?o; ?rs]] =>
      destruct (child_occurs qn adlcp_only "manifest" a None [m; o; rs] o)
        as (pre1 & post1 & H1); [simpl; tauto|]
  end.
  eapply occurs_trans; [exact H1|].
  match goal with
  | |- context [ET.Elem "organizations" ?a None [?org]] =>
      destruct (child_occurs qn [] "organizations" a None [org] org)
        as (pre2 & post2 & H2); [simpl; tauto|]
  end.
  eapply occurs_trans; [exact H2|].
  match goal with
  | |- context [ET.Elem "organization" ?a None [?ti; ?it]] =>
      destruct (child_occurs qn [] "organization" a None [ti; it] ti)
        as (pre3 & post3 & H3); [simpl; tauto|]
  end.
  exists pre3, post3. rewrite H3. reflexivity.
Qed.

(** C2.  For every title, identifier, launch file and file list (and
    whatever prefixes were registered before), [generate_manifest] returns
    the declaration [<?xml version="1.0" encoding="UTF-8"?>] and a line feed
    followed by the UTF-8 encoding of the serialised element tree; these
    bytes decode to the declaration text followed by the serialised tree,
    and the marker [<?] occurs in them exactly once, at the very start.
    But a well-formed XML document they are not for every input:
    [_escape_cdata] lets control characters through, so a title with a
    character XML forbids gives an output with that character, which no
    XML parser accepts.  So it is for the title [Demo], U+0001, [Course]. *)
Theorem C2_forbidden_characters_are_written_raw :
  (forall (reg : list (string * string)) (title identifier launch : string)
          (fl : list string),
     exists (reg' : list (string * string)) (text : string),
       register_namespaces reg = Some reg'
       /\ text = ET._serialize_xml (ET.qname_text reg' adlcp_only) adlcp_only
                   (manifest_tree title identifier launch fl)
       /\ ET.tostring reg' (manifest_tree title identifier launch fl)
          = Some (utf8_encode text)
       /\ generate_manifest reg title identifier launch fl
          = Some (xml_declaration ++ utf8_encode text)%list
       /\ is_prefix (b "<?xml ") (xml_declaration ++ utf8_encode text)%list
          = true
       /\ utf8_decode (xml_declaration ++ utf8_encode text)%list
          = Some (string_of_list_byte xml_declaration ++ text)
       /\ count_sub (b "<?") (xml_declaration ++ utf8_encode text)%list = 1
       /\ (xml_chars title = false ->
           xml_chars (string_of_list_byte xml_declaration ++ text) = false))
  /\ xml_chars title_with_control_character = false
  /\ generate_manifest ET.default_namespace_map title_with_control_character
       "com.example.scorm.0a1b2c3d" "index.html" ["index.html"]
     = Some (xml_declaration
             ++ b (manifest_text_titled title_with_control_character))%list
  /\ utf8_decode
       (xml_declaration
        ++ b (manifest_text_titled title_with_control_character))%list
     = Some (string_of_list_byte xml_declaration
             ++ manifest_text_titled title_with_control_character)
  /\ xml_chars (string_of_list_byte xml_declaration
                ++ manifest_text_titled title_with_control_character)
     = false.
Proof.
  split; [|repeat split; reflexivity].
  intros reg title identifier launch fl.
  destruct (generate_manifest_bytes reg title identifier launch fl)
    as (reg' & Hreg & Hto & Hgen).
  exists reg'. eexists. split; [exact Hreg|]. split; [reflexivity|].
  split; [exact Hto|]. split; [exact Hgen|].
  split; [reflexivity|]. split; [|split].
  - rewrite declaration_is_ascii at 1.
    rewrite <- utf8_encode_app. apply utf8_decode_encode.
  - rewrite count_after_declaration, tidy_count; [reflexivity|].
    rewrite manifest_tree_shape.
    apply serialize_tidy; [apply well_named_manifest|reflexivity].
  - intros Htitle. rewrite manifest_tree_shape.
    assert (Hne : title <> "") by (intros ->; discriminate Htitle).
    destruct (manifest_text_holds_title reg' title identifier launch
                (map file_element (sorted (fun f => f) fl)) Hne)
      as (pre & post & ->).
    rewrite !xml_chars_app, (escape_cdata_keeps_forbidden _ Htitle).
    cbn [andb]. now rewrite !andb_false_r.
Qed.

(** With the title of the example the same text is the manifest of
    section 8. *)
Example manifest_text_titled_demo :
  manifest_text_titled "Demo Course" = demo_manifest_text.
Proof. reflexivity. Qed.
